(** * GlueOps/storypoints: token manager, webhook redelivery and the issues
      webhook handler, embedded from the Python sources.

    - [Py]       : the Python values the code manipulates (JSON data, truthiness,
                   [==], [dict.get], the string operations used on the Link header)
    - [Eff]      : the effects of the code (exceptions, network requests, the
                   singleton object) as a state-and-error monad over an environment
    - [Auth]     : app/utils/github/auth.py
    - [Hooks]    : app/utils/github/hooks.py
    - [Projects] : app/utils/github/projects.py (add_to_project)
    - [Main]     : app/main.py (trigger_workflow)
    - [Race]     : interleavings of several callers of get_headers
    - [Props]    : the vocabulary of the properties
    - [Examples] : concrete environments and inputs
    - [ProjectQuery] : get_project_node_id of projects.py, and the loading
                   of main.py that calls it
    - [Config]   : the environment variables of main.py
    - [MoreProps], [MoreExamples] : vocabulary and inputs of the further
                   properties

    Logging is not modelled: it does not influence any result. *)

From Stdlib Require Import List String Ascii ZArith QArith Bool Lia.
Import ListNotations.
Local Open Scope string_scope.
Local Open Scope Z_scope.

(* ===================================================================== *)
(** ** Python values *)
(* ===================================================================== *)
Module Py.

(** What [response.json()] and [request.json()] can produce.  Floats are
    idealised as rationals (no NaN, no rounding). *)
#[local] Set Warnings "-register-all".
Inductive value : Type :=
  | VNone
  | VBool (b : bool)
  | VInt (z : Z)
  | VFloat (q : Q)
  | VStr (s : string)
  | VList (l : list value)
  | VDict (d : list (string * value)).

(** A dict is an association list; the first binding of a key is the
    one [get] sees. *)
Definition dict : Type := list (string * value).

(** [bool(v)] *)
Definition truthy (v : value) : bool :=
  match v with
  | VNone => false
  | VBool b => b
  | VInt z => negb (z =? 0)
  | VFloat q => negb (Qeq_bool q 0)
  | VStr s => negb (String.eqb s EmptyString)
  | VList l => match l with [] => false | _ => true end
  | VDict d => match d with [] => false | _ => true end
  end.

Fixpoint lookup (k : string) (d : dict) : option value :=
  match d with
  | [] => None
  | (k', v) :: r => if String.eqb k k' then Some v else lookup k r
  end.

(** [d.get(k)] and [d.get(k, default)] *)
Definition get (d : dict) (k : string) : value :=
  match lookup k d with Some v => v | None => VNone end.

Definition get_default (d : dict) (k : string) (default : value) : value :=
  match lookup k d with Some v => v | None => default end.

(** [k in d] for a dict *)
Definition has_key (d : dict) (k : string) : bool :=
  match lookup k d with Some _ => true | None => false end.

(** [a == b].  Booleans are the integers 0 and 1, numbers compare by
    value, sequences element-wise, dicts key by key. *)
Fixpoint py_eq (a b : value) {struct a} : bool :=
  match a, b with
  | VNone, VNone => true
  | VBool x, VBool y => Bool.eqb x y
  | VBool x, VInt y => Z.b2z x =? y
  | VBool x, VFloat q => Qeq_bool (inject_Z (Z.b2z x)) q
  | VInt x, VBool y => x =? Z.b2z y
  | VInt x, VInt y => x =? y
  | VInt x, VFloat q => Qeq_bool (inject_Z x) q
  | VFloat p, VBool y => Qeq_bool p (inject_Z (Z.b2z y))
  | VFloat p, VInt y => Qeq_bool p (inject_Z y)
  | VFloat p, VFloat q => Qeq_bool p q
  | VStr s, VStr t => String.eqb s t
  | VList l1, VList l2 =>
      (fix all2 (xs ys : list value) {struct xs} : bool :=
         match xs, ys with
         | [], [] => true
         | x :: xs', y :: ys' => py_eq x y && all2 xs' ys'
         | _, _ => false
         end) l1 l2
  | VDict d1, VDict d2 =>
      Nat.eqb (List.length d1) (List.length d2) &&
      (fix sub (kvs : list (string * value)) {struct kvs} : bool :=
         match kvs with
         | [] => true
         | (k, v) :: r =>
             match lookup k d2 with
             | Some w => py_eq v w
             | None => false
             end && sub r
         end) d1
  | _, _ => false
  end.

(** [x in xs] for a list: its elements are compared with [x] in turn *)
Definition py_in (x : value) (xs : list value) : bool :=
  existsb (fun e => py_eq e x) xs.

(** *** Strings *)

Definition dquote : string := String "034"%char EmptyString.
Definition newline : string := String "010"%char EmptyString.

(** [sub in s] *)
Definition contains (sub s : string) : bool :=
  match String.index 0 sub s with Some _ => true | None => false end.

(** [s.find(sub)]: the first position, -1 when absent *)
Definition find (sub s : string) : Z :=
  match String.index 0 sub s with Some n => Z.of_nat n | None => -1 end.

(** [s.split(c)] for a one-character separator: never empty *)
Fixpoint split (c : ascii) (s : string) : list string :=
  match s with
  | EmptyString => [EmptyString]
  | String a r =>
      if Ascii.eqb a c then EmptyString :: split c r
      else match split c r with
           | [] => [String a EmptyString]
           | p :: ps => String a p :: ps
           end
  end.

(** [s[a:b]]: negative bounds count from the end, all bounds are clipped *)
Definition clip (len i : Z) : Z :=
  if i <? 0 then Z.max 0 (i + len) else Z.min i len.

Definition slice (s : string) (a b : Z) : string :=
  let len := Z.of_nat (String.length s) in
  let a' := clip len a in
  let b' := clip len b in
  if a' <? b' then String.substring (Z.to_nat a') (Z.to_nat (b' - a')) s
  else EmptyString.

End Py.
Import Py.

(* ===================================================================== *)
(** ** Effects: exceptions, the network, clocks, the object store *)
(* ===================================================================== *)
Module Eff.

Inductive exn : Type :=
  | ExHTTPError (status : Z)          (* requests: raise_for_status *)
  | ExConnectionError                 (* requests: transport *)
  | ExTimeout
  | ExRequestException
  | ExJSONDecodeError
  | ExValueError
  | ExTypeError
  | ExAttributeError
  | ExKeyError
  | ExOverflowError                   (* datetime and timedelta out of range *)
  | ExEncode                          (* whatever jwt.encode raises *)
  | ExHTTPException (status : Z) (detail : string).   (* fastapi *)

Inductive result (A : Type) : Type :=
  | Ok (a : A)
  | Raise (e : exn).
Arguments Ok {A} a.
Arguments Raise {A} e.

Definition headers : Type := list (string * string).

Inductive method : Type := GET | POST.

Inductive payload : Type :=
  | NoBody
  | JsonBody (v : value)              (* requests.post(..., json=v) *)
  | DataBody (s : string).            (* requests.post(..., data=s) *)

Record request : Type := mkRequest
  { meth : method;
    url : string;
    req_headers : headers;
    body : payload;
    timeout : option Z }.

(** What the code reads from a [requests.Response]: the status, the Link
    header, and the decoded body ([None]: the body is not JSON). *)
Record response : Type := mkResponse
  { status_code : Z;
    link : option string;
    json : option value }.

(** [requests.get] and [requests.post] themselves raise transport errors
    only; [HTTPError] comes from [raise_for_status]. *)
Inductive transport_error : Type := TConnection | TTimeout | TOther.

Definition exn_of_transport (t : transport_error) : exn :=
  match t with
  | TConnection => ExConnectionError
  | TTimeout => ExTimeout
  | TOther => ExRequestException
  end.

Inductive outcome : Type :=
  | Failed (t : transport_error)
  | Responded (r : response).

Inductive event : Type :=
  | Request (r : request)
  | Sleep (seconds : Z).

(** The environment: every answer is a function of what the process has
    done so far.  A naive [datetime] is a number of microseconds on the
    proleptic timeline, counted from 2024-01-01T00:00:00, so that
    comparing datetimes is comparing numbers. *)
Record World : Type := mkWorld
  { time_time : list event -> Q;                 (* time.time() *)
    utcnow : list event -> Z;                    (* datetime.utcnow() *)
    timestamp : Z -> Q;                          (* datetime.timestamp() *)
    strptime : string -> option Z;               (* strptime(s, "%Y-%m-%dT%H:%M:%SZ"); None: ValueError *)
    jwt_encode : dict -> string -> string -> option string;
                                                 (* jwt.encode(payload, key, algorithm); None: raises *)
    send : list event -> request -> outcome;     (* the network *)
    format : value -> string }.                  (* str(v), as f-strings apply it *)

(** The fields of a GitHubInstallationTokenManager object. *)
Record manager : Type := mkManager
  { github_app_installation_id : string;
    github_app_id : string;
    github_app_private_key : string;
    _token : value;
    _expires_at : Q }.

Definition ref : Type := nat.

(** The process: the objects allocated so far, the class attribute
    [GitHubInstallationTokenManager._instance], and the trace of requests
    and sleeps. *)
Record state : Type := mkState
  { heap : list manager;
    _instance : option ref;
    log : list event }.

Definition M (A : Type) : Type := state -> result A * state.

Definition ret {A} (a : A) : M A := fun st => (Ok a, st).

Definition bind {A B} (m : M A) (k : A -> M B) : M B :=
  fun st =>
    match m st with
    | (Ok a, st') => k a st'
    | (Raise e, st') => (Raise e, st')
    end.

Definition raise {A} (e : exn) : M A := fun st => (Raise e, st).

(** [try: m  except Exception as e: h e] *)
Definition catch {A} (m : M A) (h : exn -> M A) : M A :=
  fun st =>
    match m st with
    | (Ok a, st') => (Ok a, st')
    | (Raise e, st') => h e st'
    end.

Definition get_log : M (list event) := fun st => (Ok (log st), st).

Definition emit (e : event) : M unit :=
  fun st => (Ok tt, mkState (heap st) (_instance st) (log st ++ [e])).

Fixpoint update {A} (l : list A) (i : nat) (x : A) : list A :=
  match l, i with
  | [], _ => []
  | _ :: r, O => x :: r
  | a :: r, S j => a :: update r j x
  end.

(** Reading and writing the attributes of the object [self] points to. *)
Definition load (self : ref) : M manager :=
  fun st =>
    match nth_error (heap st) self with
    | Some m => (Ok m, st)
    | None => (Raise ExAttributeError, st)
    end.

Definition store (self : ref) (m : manager) : M unit :=
  fun st => (Ok tt, mkState (update (heap st) self m) (_instance st) (log st)).

End Eff.
Import Eff.

Declare Scope py_scope.
Delimit Scope py_scope with py.
Notation "x <- c1 ;; c2" := (bind c1 (fun x => c2))
  (at level 61, c1 at next level, right associativity) : py_scope.
Notation "c1 ;; c2" := (bind c1 (fun _ => c2))
  (at level 61, right associativity) : py_scope.

Local Open Scope py_scope.

(* ===================================================================== *)
(** ** app/utils/github/auth.py *)
(* ===================================================================== *)
Module Auth.

Definition GITHUB_ACCESS_TOKENS_URL_TEMPLATE (installation_id : string) : string :=
  "https://api.github.com/app/installations/" ++ installation_id ++ "/access_tokens".

(** [int(x)] on a float: truncation towards zero *)
Definition py_int (q : Q) : Z := Z.quot (Qnum q) (Zpos (Qden q)).

Definition Qltb (x y : Q) : bool := negb (Qle_bool y x).

(** The three headers every authenticated call carries. *)
Definition auth_headers_of (credential : string) : headers :=
  [ ("Accept", "application/vnd.github+json");
    ("Authorization", "Bearer " ++ credential);
    ("X-GitHub-Api-Version", "2022-11-28") ].

Section WithWorld.
Context (W : World).

(** [requests.get] / [requests.post]: the request goes out (it is
    recorded), the environment answers. *)
Definition requests_send (r : request) : M outcome :=
  l <- get_log ;;
  emit (Request r) ;;
  ret (send W l r).

Definition received (o : outcome) : M response :=
  match o with
  | Failed t => raise (exn_of_transport t)
  | Responded r => ret r
  end.

(** [response.raise_for_status()] *)
Definition raise_for_status (r : response) : M unit :=
  if (400 <=? status_code r) && (status_code r <? 600)
  then raise (ExHTTPError (status_code r))
  else ret tt.

(** [response.json()] *)
Definition response_json (r : response) : M value :=
  match json r with
  | Some v => ret v
  | None => raise ExJSONDecodeError
  end.

(** [v.get] exists on dicts only. *)
Definition as_dict (v : value) : M dict :=
  match v with
  | VDict d => ret d
  | _ => raise ExAttributeError
  end.

(** auth.py, lines 19-48 *)
Definition jwt_claims (now : Z) (github_app_id : string) : dict :=
  [ ("iat", VInt (now - 60));
    ("exp", VInt (now + 60 * 8));
    ("iss", VStr github_app_id) ].

Definition github_auth_jwt (github_app_id github_app_private_key : string) : M headers :=
  l <- get_log ;;
  let now := py_int (timestamp W (utcnow W l)) in
  let payload := jwt_claims now github_app_id in
  match jwt_encode W payload github_app_private_key "RS256" with
  | Some token => ret (auth_headers_of token)
  | None => raise ExEncode
  end.

(** auth.py, lines 58-70: [GitHubInstallationTokenManager(installation_id,
    app_id, private_key)].  The class lock makes the body atomic. *)
Definition GitHubInstallationTokenManager
    (installation_id app_id private_key : string) : M ref :=
  fun st =>
    match _instance st with
    | None =>
        let self := List.length (heap st) in
        (Ok self,
         mkState (heap st ++ [mkManager installation_id app_id private_key VNone 0%Q])
                 (Some self) (log st))
    | Some self => (Ok self, st)
    end.

(** auth.py, lines 123-145 *)
Definition _parse_github_time (time_str : value) : M Q :=
  match time_str with
  | VStr s =>
      match strptime W s with
      | Some dt => ret (timestamp W dt)
      | None => raise ExValueError
      end
  | _ => raise ExTypeError
  end.

(** auth.py, lines 92-121, in three parts: the request is built (lines
    99-100), sent (line 103), and its answer stored (lines 104-108).
    Every handler re-raises. *)
Definition token_request (self : ref) : M request :=
  m <- load self ;;
  let url := GITHUB_ACCESS_TOKENS_URL_TEMPLATE (github_app_installation_id m) in
  hdrs <- github_auth_jwt (github_app_id m) (github_app_private_key m) ;;
  ret (mkRequest POST url hdrs NoBody None).

Definition token_store (self : ref) (o : outcome) : M unit :=
  response <- received o ;;
  raise_for_status response ;;
  data <- response_json response ;;
  d <- as_dict data ;;
  m <- load self ;;
  store self (mkManager (github_app_installation_id m) (github_app_id m)
                        (github_app_private_key m) (get d "token") (_expires_at m)) ;;
  t <- _parse_github_time (get d "expires_at") ;;
  m <- load self ;;
  store self (mkManager (github_app_installation_id m) (github_app_id m)
                        (github_app_private_key m) (_token m) t).

Definition _fetch_new_token (self : ref) : M unit :=
  req <- token_request self ;;
  o <- requests_send req ;;
  token_store self o.

(** auth.py, lines 72-90 *)
Definition needs_refresh (m : manager) (current_time : Q) : bool :=
  negb (truthy (_token m)) || Qltb (_expires_at m - current_time) (3600 # 1).

Definition check_token (self : ref) : M bool :=
  l <- get_log ;;
  let current_time := time_time W l in
  m <- load self ;;
  ret (needs_refresh m current_time).

Definition build_headers (self : ref) : M headers :=
  m <- load self ;;
  ret (auth_headers_of (format W (_token m))).

Definition get_headers (self : ref) : M headers :=
  stale <- check_token self ;;
  (if stale then _fetch_new_token self else ret tt) ;;
  build_headers self.

End WithWorld.
End Auth.
Import Auth.

(* ===================================================================== *)
(** ** app/utils/github/hooks.py *)
(* ===================================================================== *)
Module Hooks.

Definition GITHUB_DELIVERIES_URL : string := "https://api.github.com/app/hook/deliveries".

(** hooks.py, lines 20-45.  The two lists the loop appends to are its
    accumulators. *)
Fixpoint failed_ids_loop (deliveries : list dict)
    (failed_delivery_ids guids : list value) : list value :=
  match deliveries with
  | [] => failed_delivery_ids
  | delivery :: rest =>
      let status_code := get delivery "status_code" in
      let guid := get delivery "guid" in
      let delivery_id := get delivery "id" in
      if negb (py_eq status_code (VInt 200)) && negb (py_in guid guids)
         && truthy delivery_id
      then failed_ids_loop rest (failed_delivery_ids ++ [delivery_id]) (guids ++ [guid])
      else failed_ids_loop rest failed_delivery_ids guids
  end.

Definition get_list_of_all_failed_delivery_ids (deliveries : list dict) : list value :=
  failed_ids_loop deliveries [] [].

(** hooks.py, lines 94-102: the next page out of the Link header *)
Definition rel_next : string := "rel=" ++ dquote ++ "next" ++ dquote.

Fixpoint first_next (parts : list string) : option string :=
  match parts with
  | [] => None
  | part :: rest =>
      if contains rel_next part
      then Some (slice part (find "<" part + 1) (find ">" part))
      else first_next rest
  end.

Definition next_page (link_header : string) : option string :=
  if contains rel_next link_header
  then first_next (split ","%char link_header)
  else None.

(** hooks.py, lines 74-91: the [for] loop over one page.  It ends normally,
    by the [return] of line 91, or by an exception that the handlers of
    lines 114-125 turn into a [break]; the deliveries appended so far
    stay appended in all three cases. *)
Inductive scan : Type :=
  | Finished (deliveries : list dict)
  | Returned (deliveries : list dict)
  | Broke (e : exn) (deliveries : list dict).

Definition microseconds_per_day : Z := 86400 * 1000000.

(** [datetime.min] is 0001-01-01T00:00:00, 738885 days before the origin
    of the timeline, and [datetime.max] is 9999-12-31T23:59:59.999999,
    the last microsecond of the 2913174 days from the origin on. *)
Definition datetime_min : Z := - 738885 * microseconds_per_day.
Definition datetime_max : Z := 2913174 * microseconds_per_day - 1.

(** [timedelta(days=d)]: OverflowError beyond 999999999 days. *)
Definition timedelta_days (days : Z) : option Z :=
  if Z.abs days <=? 999999999 then Some (days * microseconds_per_day) else None.

(** [t - delta] on a datetime: OverflowError outside of
    [datetime.min .. datetime.max]. *)
Definition datetime_minus (t delta : Z) : option Z :=
  if (datetime_min <=? t - delta) && (t - delta <=? datetime_max)
  then Some (t - delta) else None.

(** hooks.py, line 61, which is not inside the [try]. *)
Definition cutoff_of (now days_to_reprocess : Z) : option Z :=
  match timedelta_days days_to_reprocess with
  | Some delta => datetime_minus now delta
  | None => None
  end.

Section WithWorld.
Context (W : World).

Fixpoint scan_items (cutoff_time : Z) (items : list value) (deliveries : list dict) : scan :=
  match items with
  | [] => Finished deliveries
  | VDict delivery :: rest =>
      let delivered_at_str := get delivery "delivered_at" in
      if negb (truthy delivered_at_str) then scan_items cutoff_time rest deliveries
      else match delivered_at_str with
           | VStr s =>
               match strptime W s with
               | None => scan_items cutoff_time rest deliveries
               | Some delivered_at =>
                   if cutoff_time <=? delivered_at
                   then scan_items cutoff_time rest (deliveries ++ [delivery])
                   else Returned deliveries
               end
           | _ => Broke ExTypeError deliveries
           end
  | _ :: _ => Broke ExAttributeError deliveries
  end.

(** [for delivery in data]: a list yields its elements; a dict yields its
    keys and a string its characters, on which [.get] fails; nothing else
    that is truthy can be iterated. *)
Definition scan_page (cutoff_time : Z) (data : value) (deliveries : list dict) : scan :=
  match data with
  | VList items => scan_items cutoff_time items deliveries
  | VDict _ | VStr _ => Broke ExAttributeError deliveries
  | _ => Broke ExTypeError deliveries
  end.

Definition page_request (url : string) (auth_headers : headers) : request :=
  mkRequest GET url auth_headers NoBody None.

(** hooks.py, lines 63-125: the [while url] loop.  [None]: the fuel ran
    out before the loop ended. *)
Fixpoint fetch_pages (fuel : nat) (auth_headers : headers) (cutoff_time : Z)
    (url : string) (deliveries : list dict) : M (option (list dict)) :=
  match fuel with
  | O => ret None
  | S fuel' =>
      if negb (truthy (VStr url)) then ret (Some deliveries)
      else
        o <- requests_send W (page_request url auth_headers) ;;
        page <- catch (response <- received o ;;
                       raise_for_status response ;;
                       data <- response_json response ;;
                       ret (Some (response, data)))
                      (fun _ => ret None) ;;
        match page with
        | None => ret (Some deliveries)
        | Some (response, data) =>
            if negb (truthy data) then ret (Some deliveries)
            else match scan_page cutoff_time data deliveries with
                 | Returned ds => ret (Some ds)
                 | Broke _ ds => ret (Some ds)
                 | Finished ds =>
                     let link_header :=
                       match link response with Some s => s | None => EmptyString end in
                     match next_page link_header with
                     | None => ret (Some ds)
                     | Some next_url =>
                         if negb (truthy (VStr next_url)) then ret (Some ds)
                         else emit (Sleep 1) ;;
                              fetch_pages fuel' auth_headers cutoff_time next_url ds
                     end
                 end
        end
  end.

(** hooks.py, lines 48-128 *)
Definition get_webhook_deliveries (fuel : nat) (auth_headers : headers)
    (days_to_reprocess : Z) : M (option (list dict)) :=
  l <- get_log ;;
  let url := GITHUB_DELIVERIES_URL ++ "?per_page=100" in
  match cutoff_of (utcnow W l) days_to_reprocess with
  | None => raise ExOverflowError
  | Some cutoff_time => fetch_pages fuel auth_headers cutoff_time url []
  end.

(** hooks.py, lines 131-167 *)
Definition attempts_url (delivery_id : value) : string :=
  "https://api.github.com/app/hook/deliveries/" ++ format W delivery_id ++ "/attempts".

Definition retry_request (delivery_id : value) (auth_headers : headers) : request :=
  mkRequest POST (attempts_url delivery_id) auth_headers NoBody (Some 30).

Definition retry_webhook_delivery (delivery_id : value) (auth_headers : headers) : M value :=
  catch (o <- requests_send W (retry_request delivery_id auth_headers) ;;
         response <- received o ;;
         response_json response)
        (fun _ => ret VNone).

(** hooks.py, lines 170-202 *)
Fixpoint retry_each (failed_delivery_ids : list value) (auth_headers : headers) : M unit :=
  match failed_delivery_ids with
  | [] => ret tt
  | delivery_id :: rest =>
      retry_webhook_delivery delivery_id auth_headers ;;
      retry_each rest auth_headers
  end.

Definition retry_failed_deliveries (fuel : nat) (github_app_id github_app_private_key : string)
    (number_of_days_to_reprocess : Z) : M (option unit) :=
  catch (auth_headers <- github_auth_jwt W github_app_id github_app_private_key ;;
         fetched <- get_webhook_deliveries fuel auth_headers number_of_days_to_reprocess ;;
         match fetched with
         | None => ret None
         | Some deliveries =>
             let failed_delivery_ids := get_list_of_all_failed_delivery_ids deliveries in
             retry_each failed_delivery_ids auth_headers ;;
             ret (Some tt)
         end)
        (fun _ => ret (Some tt)).

End WithWorld.
End Hooks.
Import Hooks.

(* ===================================================================== *)
(** ** app/utils/github/projects.py *)
(* ===================================================================== *)
Module Projects.

Definition GITHUB_GRAPHQL_URL : string := "https://api.github.com/graphql".

(** [k in v] and [v[k]] for a string [k] *)
Definition py_contains (k : string) (v : value) : M bool :=
  match v with
  | VDict d => ret (has_key d k)
  | VList l => ret (py_in (VStr k) l)
  | VStr s => ret (contains k s)
  | _ => raise ExTypeError
  end.

Definition subscript (v : value) (k : string) : M value :=
  match v with
  | VDict d => match lookup k d with Some x => ret x | None => raise ExKeyError end
  | _ => raise ExTypeError
  end.

Section WithWorld.
Context (W : World).

(** projects.py, lines 86-94 *)
Definition add_item_mutation (project_node_id item_node_id : value) : string :=
  newline ++
  "    mutation {" ++ newline ++
  "        addProjectV2ItemById(input: {projectId: " ++ dquote ++ format W project_node_id
    ++ dquote ++ ", contentId: " ++ dquote ++ format W item_node_id ++ dquote ++ "}) {" ++ newline ++
  "            item {" ++ newline ++
  "                id" ++ newline ++
  "            }" ++ newline ++
  "        }" ++ newline ++
  "    }" ++ newline ++
  "    ".

Definition add_item_request (project_node_id item_node_id : value) (auth_headers : headers)
    : request :=
  mkRequest POST GITHUB_GRAPHQL_URL auth_headers
    (JsonBody (VDict [("query", VStr (add_item_mutation project_node_id item_node_id))]))
    None.

(** projects.py, lines 74-125 *)
Definition add_to_project (project_node_id item_node_id : value) (auth_headers : headers)
    : M bool :=
  catch (o <- requests_send W (add_item_request project_node_id item_node_id auth_headers) ;;
         response <- received o ;;
         raise_for_status response ;;
         data <- response_json response ;;
         errors <- py_contains "errors" data ;;
         if errors then ret false
         else
           d <- subscript data "data" ;;
           a <- subscript d "addProjectV2ItemById" ;;
           i <- subscript a "item" ;;
           item_id <- subscript i "id" ;;
           ret true)
        (fun _ => ret false).

End WithWorld.
End Projects.
Import Projects.

(* ===================================================================== *)
(** ** app/main.py *)
(* ===================================================================== *)
Module Main.

Definition message (text : string) : value := VDict [("message", VStr text)].

(** What FastAPI sends for what a route function does. *)
Definition http_reply (r : result value) : Z * value :=
  match r with
  | Ok v => (200, v)
  | Raise (ExHTTPException status detail) => (status, VDict [("detail", VStr detail)])
  | Raise _ => (500, VStr "Internal Server Error")
  end.

Section WithWorld.
Context (W : World).
(** The module-level globals of lines 73 and 77. *)
Context (PROJECT_NODE_ID : value) (headers_ : headers).

(** main.py, lines 148-186.  [event_type] is the x-github-event header,
    [payload] what [await request.json()] gives ([None]: it raises). *)
Definition trigger_workflow (event_type : option string) (payload : option value) : M value :=
  if match event_type with Some e => String.eqb e "issues" | None => false end
  then
    handled <-
      catch (request_body <- match payload with
                             | Some v => ret v
                             | None => raise ExJSONDecodeError
                             end ;;
             fields <- as_dict request_body ;;
             let action := get fields "action" in
             issue <- as_dict (get_default fields "issue" (VDict [])) ;;
             let node_id := get issue "node_id" in
             if py_in action [VStr "opened"; VStr "reopened"] && truthy node_id
             then add_to_project W PROJECT_NODE_ID node_id headers_ ;;
                  ret (Some (message "Issue added to project."))
             else ret None)
            (fun e => match e with
                      | ExHTTPException _ _ => raise e
                      | _ => raise (ExHTTPException 500 "Internal Server Error")
                      end) ;;
    match handled with
    | Some reply => ret reply
    | None => ret (message "No action taken.")
    end
  else ret (message "No action taken.").

End WithWorld.
End Main.
Import Main.

(* ===================================================================== *)
(** ** Several callers of get_headers on the one manager *)
(* ===================================================================== *)
Module Race.

(** Where a caller of [get_headers] stands.  A thread can be preempted
    between any two of these points; in particular it waits for the
    answer of [requests.post] without holding anything. *)
Inductive caller : Type :=
  | Idle                       (* before line 79 *)
  | Refreshing                 (* took the branch of line 83 *)
  | Waiting (o : outcome)      (* line 103: request sent, answer pending *)
  | Ready                      (* before line 86 *)
  | Done (h : headers)
  | Crashed (e : exn).

Record config : Type := mkConfig
  { shared : state;
    callers : list caller }.


Definition is_request (e : event) : bool :=
  match e with Request _ => true | Sleep _ => false end.


Definition calls (c : config) : nat :=
  List.length (filter is_request (log (shared c))).


Section WithWorld.
Context (W : World) (self : ref).

Definition advance {A} (c : config) (i : nat) (m : M A) (next : A -> caller) : config :=
  match m (shared c) with
  | (Ok a, st) => mkConfig st (update (callers c) i (next a))
  | (Raise e, st) => mkConfig st (update (callers c) i (Crashed e))
  end.

(** Caller [i] runs up to its next preemption point. *)
Definition step (c : config) (i : nat) : config :=
  match nth_error (callers c) i with
  | Some Idle =>
      advance c i (check_token W self)
              (fun stale : bool => if stale then Refreshing else Ready)
  | Some Refreshing =>
      advance c i (req <- token_request W self ;; requests_send W req) Waiting
  | Some (Waiting o) =>
      advance c i (token_store W self o) (fun _ => Ready)
  | Some Ready =>
      advance c i (build_headers W self) Done
  | Some (Done _) | Some (Crashed _) | None => c
  end.

Definition run (schedule : list nat) (c : config) : config :=
  fold_left step schedule c.

(** [n] callers about to call [get_headers]. *)
Definition start (st : state) (n : nat) : config :=
  mkConfig st (repeat Idle n).

End WithWorld.
End Race.
Import Race.

(* ===================================================================== *)
(** ** Vocabulary of the properties *)
(* ===================================================================== *)
Module Props.

(** A delivery the loop of lines 32-42 can select: it did not end in 200
    and has an id that is not empty. *)
Definition retriable (delivery : dict) : bool :=
  negb (py_eq (get delivery "status_code") (VInt 200)) && truthy (get delivery "id").

(** The first delivery of each guid, given the guids already seen. *)
Fixpoint first_per_guid (seen : list value) (deliveries : list dict) : list dict :=
  match deliveries with
  | [] => []
  | d :: rest =>
      if py_in (get d "guid") seen then first_per_guid seen rest
      else d :: first_per_guid (seen ++ [get d "guid"]) rest
  end.

(** A delivery whose delivered_at parses to a time not before the cutoff. *)
Definition within_window (W : World) (cutoff_time : Z) (delivery : dict) : Prop :=
  exists s delivered_at,
    get delivery "delivered_at" = VStr s /\
    strptime W s = Some delivered_at /\
    cutoff_time <= delivered_at.

(** What one run appends to the trace. *)
Definition appended (before after : state) (events : list event) : Prop :=
  log after = (log before ++ events)%list.

(** The deliveries a scan of one page leaves in the list. *)
Definition scanned (r : scan) : list dict :=
  match r with Finished ds | Returned ds | Broke _ ds => ds end.

(** The [try] part of one iteration: the request is recorded, the page
    is what was decoded, if anything. *)
Definition page_of (o : outcome) : option (response * value) :=
  match o with
  | Failed _ => None
  | Responded r =>
      if (400 <=? status_code r) && (status_code r <? 600) then None
      else match json r with Some data => Some (r, data) | None => None end
  end.

(** The events of paging: GET requests with the given headers, and sleeps. *)
Definition page_event (auth_headers : headers) (e : event) : Prop :=
  match e with
  | Request r => meth r = GET /\ req_headers r = auth_headers
  | Sleep _ => True
  end.

(** The id at data.addProjectV2ItemById.item.id of a GraphQL answer, and
    whether an answer to the mutation reports the item as added. *)
Definition member (k : string) (v : option value) : option value :=
  match v with
  | Some (VDict d) => lookup k d
  | _ => None
  end.

Definition item_id_of (data : value) : option value :=
  member "id" (member "item" (member "addProjectV2ItemById" (member "data" (Some data)))).

Definition added (o : outcome) : bool :=
  match page_of o with
  | Some (_, VDict data) =>
      negb (has_key data "errors") &&
      match item_id_of (VDict data) with Some _ => true | None => false end
  | _ => false
  end.


Definition opened_or_reopened (action : value) : bool :=
  py_in action [VStr "opened"; VStr "reopened"].




End Props.
Import Props.

(* ===================================================================== *)
(** ** Concrete environments, for the examples *)
(* ===================================================================== *)
Module Examples.

(** [str(v)] on the values the examples format *)
Definition show (v : value) : string :=
  match v with
  | VStr s => s
  | VNone => "None"
  | VBool true => "True"
  | VBool false => "False"
  | VInt 7 => "7"
  | VInt 8 => "8"
  | _ => "?"
  end.

(** Two timestamps in GitHub's format, as microseconds since
    2024-01-01T00:00:00. *)
Definition t_jan10 : string := "2024-01-10T00:00:00Z".
Definition t_jan02 : string := "2024-01-02T00:00:00Z".

Definition parse (s : string) : option Z :=
  if String.eqb s t_jan10 then Some (9 * microseconds_per_day)
  else if String.eqb s "2024-01-07T00:00:00Z" then Some (6 * microseconds_per_day)
  else if String.eqb s t_jan02 then Some (1 * microseconds_per_day)
  else None.

(** A signer that rejects the empty key. *)
Definition sign (payload : dict) (key algorithm : string) : option string :=
  if String.eqb key EmptyString then None else Some "eyJ.app.jwt".

Definition token_answer : outcome :=
  Responded (mkResponse 201 None
    (Some (VDict [("token", VStr "ghs_new"); ("expires_at", VStr t_jan10)]))).

(** The clock stands at 2024-01-08T00:00:00 (604800 seconds in); every
    request is answered with a new installation token. *)
Definition world_with (answer : list event -> request -> outcome) : World :=
  mkWorld (fun _ => 604800 # 1)%Q
          (fun _ => 7 * microseconds_per_day)
          (fun dt => (dt # 1000000)%Q)
          parse sign answer show.

Definition token_world : World := world_with (fun _ _ => token_answer).

(** The process after the construction of line 68 of main.py, with an
    empty private key, and with a token cached until the 10th. *)
Definition cold : state :=
  mkState [mkManager "42" "7" "PEM" VNone 0%Q] (Some 0%nat) [].

Definition keyless : state :=
  mkState [mkManager "42" "7" EmptyString VNone 0%Q] (Some 0%nat) [].

Definition warm : state :=
  mkState [mkManager "42" "7" "PEM" (VStr "ghs_old") (777600 # 1)%Q] (Some 0%nat) [].

(** Deliveries as the delivery log lists them. *)
Definition t_jan07 : string := "2024-01-07T00:00:00Z".

Definition delivery (id : Z) (guid : string) (status : Z) (delivered_at : string)
    (redelivery : bool) : dict :=
  [ ("id", VInt id); ("guid", VStr guid); ("delivered_at", VStr delivered_at);
    ("redelivery", VBool redelivery); ("status_code", VInt status) ].

Definition failed_7 : dict := delivery 7 "a" 500 t_jan07 true.
Definition failed_8 : dict := delivery 8 "a" 500 t_jan07 false.
Definition fine_7 : dict := delivery 7 "a" 200 t_jan07 false.
Definition old_5 : dict := delivery 5 "c" 500 t_jan02 false.

(** A failed delivery without an id. *)
Definition anonymous : dict :=
  [ ("guid", VStr "a"); ("delivered_at", VStr t_jan07); ("status_code", VInt 500) ].

(** The delivery log, in two pages that both announce a next page, and
    a redelivery endpoint that knows none of the ids. *)
Definition page1_url : string := GITHUB_DELIVERIES_URL ++ "?per_page=100".
Definition page2_url : string := GITHUB_DELIVERIES_URL ++ "?per_page=100&cursor=p2".
Definition page3_url : string := GITHUB_DELIVERIES_URL ++ "?per_page=100&cursor=p3".

Definition link_to (u : string) : string :=
  "<" ++ u ++ ">; rel=" ++ dquote ++ "next" ++ dquote.

Definition not_found : response :=
  mkResponse 404 None (Some (VDict [("message", VStr "Not Found")])).

Definition delivery_log (l : list event) (r : request) : outcome :=
  match meth r with
  | GET =>
      if String.eqb (url r) page1_url
      then Responded (mkResponse 200 (Some (link_to page2_url))
                        (Some (VList [VDict failed_7; VDict failed_8])))
      else if String.eqb (url r) page2_url
      then Responded (mkResponse 200 (Some (link_to page3_url))
                        (Some (VList [VDict fine_7; VDict old_5; VDict failed_8])))
      else Failed TConnection
  | POST => Responded not_found
  end.

Definition hooks_world : World := world_with delivery_log.

(** The webhook bodies of the two scenarios. *)
Definition opened_I_1 : dict :=
  [ ("action", VStr "opened"); ("issue", VDict [("node_id", VStr "I_1")]) ].

Definition closed_I_1 : dict :=
  [ ("action", VStr "closed"); ("issue", VDict [("node_id", VStr "I_1")]) ].

End Examples.
Import Examples.

(* ===================================================================== *)
(** ** app/utils/github/projects.py: get_project_node_id *)
(* ===================================================================== *)
Module ProjectQuery.

(** The two library functions the lookup uses besides requests:
    [json.dumps], and [int] on a string ([None]: ValueError). *)
Record Library : Type := mkLibrary
  { json_dumps : value -> string;
    int_of_str : string -> option Z }.

(** projects.py, lines 26-34 *)
Definition project_query : string :=
  newline ++
  "    query($org: String!, $projNum: Int!) {" ++ newline ++
  "      organization(login: $org) {" ++ newline ++
  "        projectV2(number: $projNum) {" ++ newline ++
  "          id" ++ newline ++
  "        }" ++ newline ++
  "      }" ++ newline ++
  "    }" ++ newline ++
  "    ".

Section WithWorld.
Context (W : World) (L : Library).

(** projects.py, lines 36-44 *)
Definition project_payload (org_name : string) (proj_num : Z) : value :=
  VDict [ ("query", VStr project_query);
          ("variables", VDict [("org", VStr org_name); ("projNum", VInt proj_num)]) ].

Definition project_request (org_name : string) (proj_num : Z) (headers_ : headers) : request :=
  mkRequest POST GITHUB_GRAPHQL_URL headers_
            (DataBody (json_dumps L (project_payload org_name proj_num))) None.

(** projects.py, lines 14-71.  [int(project_id)] is evaluated before the
    [try]. *)
Definition get_project_node_id (project_id org_name : string) (headers_ : headers) : M value :=
  match int_of_str L project_id with
  | None => raise ExValueError
  | Some proj_num =>
      catch (o <- requests_send W (project_request org_name proj_num headers_) ;;
             response <- received o ;;
             raise_for_status response ;;
             data <- response_json response ;;
             errors <- py_contains "errors" data ;;
             if errors then ret VNone
             else
               d <- subscript data "data" ;;
               organization <- subscript d "organization" ;;
               project <- subscript organization "projectV2" ;;
               node_id <- subscript project "id" ;;
               ret node_id)
            (fun _ => ret VNone)
  end.

(** main.py, lines 66-86: the manager, the headers and the project node
    id the module keeps.  The handler of line 83 re-raises. *)
Definition initialize (installation_id app_id private_key project_id org_name : string)
    : M (headers * value) :=
  github_token_manager <- GitHubInstallationTokenManager installation_id app_id private_key ;;
  headers_ <- get_headers W github_token_manager ;;
  PROJECT_NODE_ID <- get_project_node_id project_id org_name headers_ ;;
  ret (headers_, PROJECT_NODE_ID).

End WithWorld.
End ProjectQuery.
Import ProjectQuery.

(* ===================================================================== *)
(** ** app/main.py: the environment variables *)
(* ===================================================================== *)
Module Config.

Definition REQUIRED_ENV_VARS : list string :=
  [ "GITHUB_APP_ID"; "GITHUB_APP_PRIVATE_KEY"; "GITHUB_PROJECT_ID";
    "GITHUB_APP_INSTALLATION_ID" ].

Definition OPTIONAL_GITHUB_ORG_NAME : string := "GlueOps".
Definition OPTIONAL_LOG_LEVEL : string := "WARNING".

(** What reading the configuration can raise. *)
Inductive failure : Type :=
  | EnvironmentError (message : string)
  | IntValueError.

Definition checked (A : Type) : Type := (failure + A)%type.

Definition and_then {A B} (c : checked A) (k : A -> checked B) : checked B :=
  match c with
  | inl e => inl e
  | inr a => k a
  end.

(** The module-level names of lines 53-59; only the project id goes
    through [str], only the number of days through [int]. *)
Record settings : Type := mkSettings
  { GITHUB_APP_ID : value;
    GITHUB_APP_PRIVATE_KEY : value;
    NUM_OF_DAYS_TO_REPROCESS_WEBHOOKS : Z;
    GITHUB_PROJECT_ID : string;
    GITHUB_APP_INSTALLATION_ID : value;
    GITHUB_ORG_NAME : value;
    LOG_LEVEL : value }.

Section WithEnvironment.
(** [os.environ], and [int] and [str] as the module applies them. *)
Context (environ : string -> option string) (L : Library) (str : value -> string).

Definition quote : string := String "039"%char EmptyString.

(** main.py, lines 28-49 *)
Definition get_env_variable (var_name : string) (default : value) : checked value :=
  let value := match environ var_name with Some s => VStr s | None => default end in
  if existsb (String.eqb var_name) REQUIRED_ENV_VARS
  then match value with
       | VNone =>
           inl (EnvironmentError
                  ("Environment variable " ++ quote ++ var_name ++ quote
                   ++ " is required but not set."))
       | _ => inr value
       end
  else inr value.

(** [int(v)] for what [get_env_variable] can return here: a string of the
    environment or the integer default. *)
Definition int_of (v : value) : checked Z :=
  match v with
  | VInt z => inr z
  | VStr s => match int_of_str L s with Some z => inr z | None => inl IntValueError end
  | _ => inl IntValueError
  end.

(** main.py, lines 52-63; the handler of line 61 re-raises. *)
Definition read_settings : checked settings :=
  and_then (get_env_variable "GITHUB_APP_ID" VNone) (fun app_id =>
  and_then (get_env_variable "GITHUB_APP_PRIVATE_KEY" VNone) (fun private_key =>
  and_then (get_env_variable "NUM_OF_DAYS_TO_REPROCESS_WEBHOOKS" (VInt 3)) (fun days =>
  and_then (int_of days) (fun number_of_days =>
  and_then (get_env_variable "GITHUB_PROJECT_ID" VNone) (fun project_id =>
  and_then (get_env_variable "GITHUB_APP_INSTALLATION_ID" VNone) (fun installation_id =>
  and_then (get_env_variable "GITHUB_ORG_NAME" (VStr OPTIONAL_GITHUB_ORG_NAME)) (fun org_name =>
  and_then (get_env_variable "LOG_LEVEL" (VStr OPTIONAL_LOG_LEVEL)) (fun log_level =>
  inr (mkSettings app_id private_key number_of_days (str project_id)
                  installation_id org_name log_level))))))))).

End WithEnvironment.
End Config.
Import Config.

(* ===================================================================== *)
(** ** Further vocabulary and examples *)
(* ===================================================================== *)
Module MoreProps.

(** What a process does with the token manager: construct it (again), or
    ask the one instance for headers. *)
Inductive call : Type :=
  | Construct (installation_id app_id private_key : string)
  | Headers.

Definition perform (W : World) (st : state) (c : call) : state :=
  match c with
  | Construct installation_id app_id private_key =>
      snd (GitHubInstallationTokenManager installation_id app_id private_key st)
  | Headers =>
      match _instance st with
      | Some self => snd (get_headers W self st)
      | None => st
      end
  end.

(** The four steps of one caller, run in one go, and where they leave
    the caller. *)
Definition four_steps (i : nat) : list nat := [i; i; i; i].

Definition outcome_of (r : result headers) : caller :=
  match r with Ok h => Done h | Raise e => Crashed e end.

(** The credentials of a manager object. *)
Definition credentials (m : manager) : string * string * string :=
  (github_app_installation_id m, github_app_id m, github_app_private_key m).

(** The manager object with another cached token. *)
Definition with_token (m : manager) (token : value) : manager :=
  mkManager (github_app_installation_id m) (github_app_id m) (github_app_private_key m)
            token (_expires_at m).

(** A delivery the page scan keeps: its delivered_at is a non-empty
    string that parses to a time not before the cutoff. *)
Definition recent (W : World) (cutoff_time : Z) (delivery : dict) : Prop :=
  exists s delivered_at,
    get delivery "delivered_at" = VStr s /\
    truthy (VStr s) = true /\
    strptime W s = Some delivered_at /\
    cutoff_time <= delivered_at.

(** An item of a page the scan passes over: a delivery without a
    delivered_at, or with one that is a string and does not parse. *)
Definition passed_over (W : World) (item : value) : bool :=
  match item with
  | VDict delivery =>
      negb (truthy (get delivery "delivered_at")) ||
      match get delivery "delivered_at" with
      | VStr s => match strptime W s with Some _ => false | None => true end
      | _ => false
      end
  | _ => false
  end.

Definition link_header_of (r : response) : string :=
  match link r with Some s => s | None => EmptyString end.

(** A delivery log served in pages: every page answers its URL, whatever
    was requested before, with recent deliveries, and names the next page
    in its Link header; the last page names none, or cannot be had. *)
Inductive paged (W : World) (auth_headers : headers) (cutoff_time : Z)
    : string -> list (string * list dict) -> Prop :=
  | last_page (url : string) (r : response) (deliveries : list dict) :
      truthy (VStr url) = true ->
      (forall l, send W l (page_request url auth_headers) = Responded r) ->
      (400 <=? status_code r) && (status_code r <? 600) = false ->
      json r = Some (VList (map VDict deliveries)) ->
      Forall (recent W cutoff_time) deliveries ->
      next_page (link_header_of r) = None ->
      paged W auth_headers cutoff_time url [(url, deliveries)]
  | broken_page (url : string) :
      truthy (VStr url) = true ->
      (forall l, page_of (send W l (page_request url auth_headers)) = None) ->
      paged W auth_headers cutoff_time url [(url, [])]
  | more_pages (url next : string) (r : response) (deliveries : list dict)
               (rest : list (string * list dict)) :
      truthy (VStr url) = true ->
      (forall l, send W l (page_request url auth_headers) = Responded r) ->
      (400 <=? status_code r) && (status_code r <? 600) = false ->
      json r = Some (VList (map VDict deliveries)) ->
      deliveries <> [] ->
      Forall (recent W cutoff_time) deliveries ->
      next_page (link_header_of r) = Some next ->
      paged W auth_headers cutoff_time next rest ->
      paged W auth_headers cutoff_time url ((url, deliveries) :: rest).

(** The requests and sleeps of paging through them. *)
Fixpoint paging_trace (auth_headers : headers) (pages : list (string * list dict))
    : list event :=
  match pages with
  | [] => []
  | (url, _) :: rest =>
      Request (page_request url auth_headers) ::
      match rest with
      | [] => []
      | _ :: _ => Sleep 1 :: paging_trace auth_headers rest
      end
  end.

(** The fields of a delivery the selection of failed ids reads. *)
Definition same_selection_fields (d d' : dict) : Prop :=
  get d "status_code" = get d' "status_code" /\
  get d "guid" = get d' "guid" /\
  get d "id" = get d' "id".

(** A string without any of the given characters. *)
Fixpoint free_of (chars : list ascii) (s : string) : bool :=
  match s with
  | EmptyString => true
  | String a r => negb (existsb (Ascii.eqb a) chars) && free_of chars r
  end.

(** What the module-level code of main.py can get from the environment:
    every required variable is set, and the number of days, if set, is an
    integer. *)
Definition well_configured (environ : string -> option string) (L : Library) : Prop :=
  Forall (fun v => environ v <> None) REQUIRED_ENV_VARS /\
  (forall s, environ "NUM_OF_DAYS_TO_REPROCESS_WEBHOOKS" = Some s -> int_of_str L s <> None).

(** The id at data.organization.projectV2.id of a GraphQL answer. *)
Definition project_id_of (data : value) : option value :=
  member "id" (member "projectV2" (member "organization" (member "data" (Some data)))).




End MoreProps.
Import MoreProps.

Module MoreExamples.

Definition library : Library :=
  mkLibrary (fun _ => "{...}")
            (fun s => if String.eqb s "12" then Some 12
                      else if String.eqb s "5" then Some 5 else None).

Definition str_of (v : value) : string :=
  match v with VStr s => s | _ => "?" end.

(** GitHub at startup: the token exchange answers with a token, the
    GraphQL endpoint with the node id of the project. *)
Definition project_answer : outcome :=
  Responded (mkResponse 200 None
    (Some (VDict [("data", VDict [("organization",
             VDict [("projectV2", VDict [("id", VStr "PVT_1")])])])]))).

Definition startup_answers (l : list event) (r : request) : outcome :=
  if String.eqb (url r) GITHUB_GRAPHQL_URL then project_answer else token_answer.

Definition startup_world : World := world_with startup_answers.

Definition fresh_process : state := mkState [] None [].

(** An environment with the required variables and nothing else. *)
Definition minimal_environ (v : string) : option string :=
  if String.eqb v "GITHUB_APP_ID" then Some "7"
  else if String.eqb v "GITHUB_APP_PRIVATE_KEY" then Some "PEM"
  else if String.eqb v "GITHUB_PROJECT_ID" then Some "12"
  else if String.eqb v "GITHUB_APP_INSTALLATION_ID" then Some "42"
  else None.

(** A one-page delivery log. *)
Definition one_page (l : list event) (r : request) : outcome :=
  match meth r with
  | GET => Responded (mkResponse 200 None (Some (VList [VDict failed_7; VDict fine_7])))
  | POST => Failed TTimeout
  end.

Definition one_page_world : World := world_with one_page.

(** An exchange answer whose expiry does not parse, and one without a
    token. *)
Definition undated_answer : outcome :=
  Responded (mkResponse 201 None
    (Some (VDict [("token", VStr "ghs_new"); ("expires_at", VStr "soon")]))).

Definition tokenless_answer : outcome :=
  Responded (mkResponse 201 None (Some (VDict [("expires_at", VStr t_jan10)]))).

Definition undated_world : World := world_with (fun _ _ => undated_answer).
Definition tokenless_world : World := world_with (fun _ _ => tokenless_answer).
Definition offline_world : World := world_with (fun _ _ => Failed TConnection).

(** GitHub reporting the item as added. *)
Definition item_answer : outcome :=
  Responded (mkResponse 200 None
    (Some (VDict [("data", VDict [("addProjectV2ItemById",
             VDict [("item", VDict [("id", VStr "PVTI_1")])])])]))).

Definition item_world : World := world_with (fun _ _ => item_answer).

End MoreExamples.
Import MoreExamples.

(* ===================================================================== *)
(** * Properties *)
(* ===================================================================== *)

(** ** The monad and the store *)

Lemma load_some (self : ref) (st : state) (m : manager) :
  nth_error (heap st) self = Some m -> load self st = (Ok m, st).
Proof. intros H. unfold load. rewrite H. reflexivity. Qed.

Lemma nth_error_update_same {A} (l : list A) (i : nat) (x y : A) :
  nth_error l i = Some y -> nth_error (update l i x) i = Some x.
Proof.
  revert i. induction l as [|a l IH]; intros [|i] H; simpl in *; try discriminate.
  - reflexivity.
  - now apply IH.
Qed.


(** ** auth.py: the signed assertion *)

(** C3 (as the code has it).  The assertion [github_auth_jwt] signs is
    back-dated: with [now] the clock reading, its claims are
    iat = now - 60, exp = now + 480 = iat + 540 and iss = the App id; it
    is signed with the private key and RS256, and a signing failure is
    raised to the caller. *)
Theorem github_auth_jwt_assertion (W : World) (app_id key : string) (st : state) :
  let now := py_int (timestamp W (utcnow W (log st))) in
  let payload := jwt_claims now app_id in
  get payload "iat" = VInt (now - 60) /\
  get payload "exp" = VInt (now + 480) /\
  now + 480 = (now - 60) + 540 /\
  get payload "iss" = VStr app_id /\
  github_auth_jwt W app_id key st =
    (match jwt_encode W payload key "RS256" with
     | Some token => Ok (auth_headers_of token)
     | None => Raise ExEncode
     end, st).
Proof.
  intros now payload. repeat split.
  - lia.
  - unfold github_auth_jwt, bind, get_log. fold now. fold payload.
    destruct (jwt_encode W payload key "RS256"); reflexivity.
Qed.

(** C3 (as stated) fails: the expiry is not 480 seconds after the
    issued-at claim. *)
Lemma jwt_expiry_is_not_iat_plus_480 :
  ~ (forall (now : Z) (app_id : string) (issued_at expires_at : Z),
       get (jwt_claims now app_id) "iat" = VInt issued_at ->
       get (jwt_claims now app_id) "exp" = VInt expires_at ->
       expires_at = issued_at + 480).
Proof.
  intros H. specialize (H 1000 "7" 940 1480 eq_refl eq_refl). discriminate H.
Qed.

(** ** auth.py: the singleton *)

Lemma constructor_reuses_instance (st : state) (self : ref)
    (installation_id app_id private_key : string) :
  _instance st = Some self ->
  GitHubInstallationTokenManager installation_id app_id private_key st = (Ok self, st).
Proof.
  intros H. unfold GitHubInstallationTokenManager. rewrite H. reflexivity.
Qed.

(** C9.  The first construction allocates the manager with the given
    credentials and an empty cache and records it in the class attribute;
    from then on, whatever the process has done to the object in between,
    a construction with any other arguments returns that same object and
    changes nothing: credentials and cached token stay as they are. *)
Theorem manager_is_a_singleton (st : state)
    (installation_id app_id private_key : string) :
  _instance st = None ->
  exists self st1,
    GitHubInstallationTokenManager installation_id app_id private_key st = (Ok self, st1) /\
    _instance st1 = Some self /\
    nth_error (heap st1) self = Some (mkManager installation_id app_id private_key VNone 0%Q) /\
    forall (st2 : state) (installation_id' app_id' private_key' : string),
      _instance st2 = _instance st1 ->
      GitHubInstallationTokenManager installation_id' app_id' private_key' st2 = (Ok self, st2).
Proof.
  intros Hnone. unfold GitHubInstallationTokenManager at 1. rewrite Hnone.
  eexists _, _. split; [reflexivity|]. cbn [_instance heap]. repeat split.
  - rewrite nth_error_app2 by apply Nat.le_refl. rewrite Nat.sub_diag. reflexivity.
  - intros st2 i' a' k' H2. now apply constructor_reuses_instance.
Qed.

Lemma manager_is_a_singleton_witness :
  exists self st1,
    GitHubInstallationTokenManager "42" "7" "KEY" (mkState [] None []) = (Ok self, st1) /\
    _instance st1 = Some self /\
    nth_error (heap st1) self = Some (mkManager "42" "7" "KEY" VNone 0%Q) /\
    forall (st2 : state) (installation_id' app_id' private_key' : string),
      _instance st2 = _instance st1 ->
      GitHubInstallationTokenManager installation_id' app_id' private_key' st2 = (Ok self, st2).
Proof. apply (manager_is_a_singleton (mkState [] None []) "42" "7" "KEY"). reflexivity. Defined.

(** ** auth.py: when get_headers refreshes *)


Lemma get_headers_fresh (W : World) (self : ref) (st : state) (m : manager) :
  nth_error (heap st) self = Some m ->
  needs_refresh m (time_time W (log st)) = false ->
  get_headers W self st = (Ok (auth_headers_of (format W (_token m))), st).
Proof.
  intros Hm Hfresh.
  unfold get_headers, check_token, build_headers, bind, get_log, ret.
  rewrite (load_some _ _ _ Hm), Hfresh. rewrite (load_some _ _ _ Hm). reflexivity.
Qed.

Lemma get_headers_stale (W : World) (self : ref) (st : state) (m : manager) :
  nth_error (heap st) self = Some m ->
  needs_refresh m (time_time W (log st)) = true ->
  get_headers W self st = (_fetch_new_token W self ;; build_headers W self) st.
Proof.
  intros Hm Hstale.
  unfold get_headers, check_token, bind, get_log, ret.
  rewrite (load_some _ _ _ Hm), Hstale. reflexivity.
Qed.

Lemma token_request_state (W : World) (self : ref) (st st' : state) (r : result request) :
  token_request W self st = (r, st') -> st' = st.
Proof.
  unfold token_request, github_auth_jwt, bind, get_log, load, ret, raise.
  destruct (nth_error (heap st) self); [|intros [= _ <-]; reflexivity].
  destruct (jwt_encode W _ _ _); intros [= _ <-]; reflexivity.
Qed.

Lemma token_store_log (W : World) (self : ref) (o : outcome) (st st' : state) (r : result unit) :
  token_store W self o st = (r, st') -> log st' = log st.
Proof.
  unfold token_store, received, raise_for_status, response_json, as_dict,
    _parse_github_time, bind, load, store, ret, raise.
  destruct o as [t|resp]; [intros [= _ <-]; reflexivity|].
  destruct ((400 <=? status_code resp) && (status_code resp <? 600));
    [intros [= _ <-]; reflexivity|].
  destruct (json resp) as [data|]; [|intros [= _ <-]; reflexivity].
  destruct data; try (intros [= _ <-]; reflexivity).
  destruct (nth_error (heap st) self) eqn:Hm; [|intros [= _ <-]; reflexivity].
  cbn [heap log _instance].
  destruct (get d "expires_at"); try (intros [= _ <-]; reflexivity).
  destruct (strptime W s); [|intros [= _ <-]; reflexivity].
  cbn [heap log _instance].
  rewrite (nth_error_update_same _ _ _ _ Hm). intros [= _ <-]; reflexivity.
Qed.







(** With a key that cannot sign, the exchange stops before its request:
    [get_headers] raises and nothing is sent. *)
Example get_headers_unsigned :
  get_headers token_world 0%nat keyless = (Raise ExEncode, keyless).
Proof. reflexivity. Qed.

(** ** Concurrent callers of get_headers *)

Lemma nth_error_middle {A} (pre post : list A) (x : A) :
  nth_error (pre ++ x :: post) (List.length pre) = Some x.
Proof. induction pre; simpl; auto. Qed.

Lemma update_middle {A} (pre post : list A) (x y : A) :
  update (pre ++ x :: post) (List.length pre) y = (pre ++ y :: post)%list.
Proof. induction pre; simpl; congruence. Qed.


Lemma count_app {A} (P : A -> bool) (l1 l2 : list A) :
  List.length (filter P (l1 ++ l2)) =
  (List.length (filter P l1) + List.length (filter P l2))%nat.
Proof. now rewrite filter_app, length_app. Qed.


Lemma check_token_state (W : World) (self : ref) (st st' : state) (r : result bool) :
  check_token W self st = (r, st') -> st' = st.
Proof.
  unfold check_token, bind, get_log, load, ret.
  destruct (nth_error (heap st) self); intros [= _ <-]; reflexivity.
Qed.

Lemma build_headers_state (W : World) (self : ref) (st st' : state) (r : result headers) :
  build_headers W self st = (r, st') -> st' = st.
Proof.
  unfold build_headers, bind, load, ret.
  destruct (nth_error (heap st) self); intros [= _ <-]; reflexivity.
Qed.

(** Sending the exchange request: either building it fails and nothing is
    sent, or exactly that request is appended to the trace. *)
Lemma send_exchange_cases (W : World) (self : ref) (st : state) :
  (exists e, token_request W self st = (Raise e, st) /\
             (req <- token_request W self ;; requests_send W req) st = (Raise e, st)) \/
  (exists req, token_request W self st = (Ok req, st) /\
     (req <- token_request W self ;; requests_send W req) st =
       (Ok (send W (log st) req),
        mkState (heap st) (_instance st) (log st ++ [Request req]))).
Proof.
  destruct (token_request W self st) as [[req|e] st0] eqn:Hreq;
    pose proof (token_request_state _ _ _ _ _ Hreq) as ->.
  - right. exists req. split; [reflexivity|].
    unfold bind at 1. rewrite Hreq. reflexivity.
  - left. exists e. split; [reflexivity|].
    unfold bind at 1. rewrite Hreq. reflexivity.
Qed.

Lemma calls_snoc_request (st : state) (req : request) :
  List.length (filter is_request (log st ++ [Request req])) =
  S (List.length (filter is_request (log st))).
Proof. rewrite count_app. simpl. lia. Qed.





Lemma get_headers_unfold (W : World) (self : ref) (st : state) :
  get_headers W self st =
  match check_token W self st with
  | (Ok true, s) =>
      match token_request W self s with
      | (Ok req, s1) =>
          match token_store W self (send W (log s1) req)
                  (mkState (heap s1) (_instance s1) (log s1 ++ [Request req])) with
          | (Ok _, s2) => build_headers W self s2
          | (Raise e, s2) => (Raise e, s2)
          end
      | (Raise e, s1) => (Raise e, s1)
      end
  | (Ok false, s) => build_headers W self s
  | (Raise e, s) => (Raise e, s)
  end.
Proof.
  unfold get_headers, _fetch_new_token, requests_send, bind, get_log, emit, ret.
  destruct (check_token W self st) as [[[|]|e] s]; try reflexivity.
  destruct (token_request W self s) as [[req|e] s1]; reflexivity.
Qed.

Ltac race_step :=
  try unfold step; try unfold advance; cbn [callers shared nth_error update fst snd].

(** A caller that runs alone does what the method does: the four steps of
    the interleaving model compose to [get_headers]. *)
Lemma lone_caller_runs_get_headers (W : World) (self : ref) (st : state) :
  run W self [0; 0; 0; 0]%nat (start st 1) =
  mkConfig (snd (get_headers W self st))
           [match fst (get_headers W self st) with
            | Ok h => Done h
            | Raise e => Crashed e
            end].
Proof.
  rewrite get_headers_unfold. unfold start, run. cbn [repeat fold_left]. race_step.
  destruct (check_token W self st) as [[[|]|e] st0] eqn:Hc;
    apply check_token_state in Hc; subst st0; race_step; [| |reflexivity].
  - destruct (send_exchange_cases W self st) as [(e & Hreq & Hs)|(req & Hreq & Hs)];
      rewrite Hs, Hreq; race_step; [reflexivity|].
    destruct (token_store W self _ _) as [[u|e] st1]; race_step; [|reflexivity].
    destruct (build_headers W self st1) as [[h|e] st2]; reflexivity.
  - destruct (build_headers W self st) as [[h|e] st2]; reflexivity.
Qed.


(** ** hooks.py: which deliveries are retried *)

Lemma failed_ids_loop_spec (deliveries : list dict) (ids guids : list value) :
  failed_ids_loop deliveries ids guids =
  (ids ++ map (fun d => get d "id") (first_per_guid guids (filter retriable deliveries)))%list.
Proof.
  revert ids guids. induction deliveries as [|d rest IH]; intros ids guids; simpl.
  - now rewrite app_nil_r.
  - unfold retriable at 1.
    destruct (py_eq (get d "status_code") (VInt 200)); simpl; [apply IH|].
    destruct (truthy (get d "id")); simpl.
    + destruct (py_in (get d "guid") guids); simpl; [apply IH|].
      rewrite IH, <- app_assoc. reflexivity.
    + rewrite andb_false_r. apply IH.
Qed.

Lemma first_per_guid_incl (seen : list value) (deliveries : list dict) (d : dict) :
  In d (first_per_guid seen deliveries) -> In d deliveries.
Proof.
  revert seen. induction deliveries as [|a rest IH]; intros seen; simpl; [tauto|].
  destruct (py_in (get a "guid") seen); simpl; intros H.
  - right. eapply IH, H.
  - destruct H as [->|H]; [now left|right; eapply IH, H].
Qed.

(** C6 (as the code has it).  The ids returned are those of the
    deliveries whose status_code is not 200 and whose id is not empty,
    one per guid, the first such delivery of a guid winning.  In
    particular two deliveries that share a guid, both with status 500,
    give the id of the first when that id is not empty, and deliveries
    that all have status 200 give nothing. *)
Theorem failed_delivery_ids_spec (deliveries : list dict) :
  get_list_of_all_failed_delivery_ids deliveries =
    map (fun d => get d "id") (first_per_guid [] (filter retriable deliveries)) /\
  (forall x, In x (get_list_of_all_failed_delivery_ids deliveries) ->
     exists d, In d deliveries /\ get d "id" = x /\ truthy x = true /\
               py_eq (get d "status_code") (VInt 200) = false) /\
  (forall d1 d2, deliveries = [d1; d2] ->
     get d1 "status_code" = VInt 500 -> get d2 "status_code" = VInt 500 ->
     py_eq (get d1 "guid") (get d2 "guid") = true ->
     truthy (get d1 "id") = true ->
     get_list_of_all_failed_delivery_ids deliveries = [get d1 "id"]) /\
  (Forall (fun d => get d "status_code" = VInt 200) deliveries ->
     get_list_of_all_failed_delivery_ids deliveries = []).
Proof.
  assert (Hspec : get_list_of_all_failed_delivery_ids deliveries =
    map (fun d => get d "id") (first_per_guid [] (filter retriable deliveries))).
  { unfold get_list_of_all_failed_delivery_ids. now rewrite failed_ids_loop_spec. }
  split; [exact Hspec|]. split; [|split].
  - intros x Hx. rewrite Hspec in Hx. apply in_map_iff in Hx.
    destruct Hx as (d & <- & Hd). apply first_per_guid_incl, filter_In in Hd.
    destruct Hd as [Hin Hr]. unfold retriable in Hr.
    apply andb_true_iff in Hr. destruct Hr as [Hs Hid].
    apply negb_true_iff in Hs. now exists d.
  - intros d1 d2 -> H1 H2 Hg Hid.
    unfold get_list_of_all_failed_delivery_ids. simpl.
    rewrite H1, H2, Hid. simpl. rewrite Hg. simpl. reflexivity.
  - intros Hall. rewrite Hspec.
    replace (filter retriable deliveries) with (@nil dict); [reflexivity|].
    clear Hspec. induction Hall as [|d rest Hd _ IH]; [reflexivity|].
    simpl. unfold retriable at 1. rewrite Hd. simpl. exact IH.
Qed.

Lemma failed_delivery_ids_spec_witness :
  get_list_of_all_failed_delivery_ids [failed_7; failed_8] = [VInt 7] /\
  get_list_of_all_failed_delivery_ids [fine_7; fine_7] = [].
Proof.
  split.
  - exact (proj1 (proj2 (proj2 (failed_delivery_ids_spec [failed_7; failed_8])))
             failed_7 failed_8 eq_refl eq_refl eq_refl eq_refl eq_refl).
  - apply (proj2 (proj2 (proj2 (failed_delivery_ids_spec [fine_7; fine_7])))).
    repeat constructor.
Defined.

(** C6 (as stated) fails: the first of two failed deliveries of a guid
    does not win when it has no id; the second is retried instead. *)
Lemma first_delivery_without_id_does_not_win :
  ~ (forall d1 d2 : dict,
       get d1 "status_code" = VInt 500 -> get d2 "status_code" = VInt 500 ->
       get d1 "guid" = get d2 "guid" ->
       get_list_of_all_failed_delivery_ids [d1; d2] = [get d1 "id"]).
Proof.
  intros H. specialize (H anonymous failed_8 eq_refl eq_refl eq_refl).
  discriminate H.
Qed.

(** ** hooks.py: paging through the delivery log *)


Lemma scan_items_within (W : World) (cutoff_time : Z) (items : list value)
    (deliveries : list dict) :
  Forall (within_window W cutoff_time) deliveries ->
  Forall (within_window W cutoff_time) (scanned (scan_items W cutoff_time items deliveries)).
Proof.
  revert deliveries. induction items as [|x items IH]; intros deliveries Hall; simpl; auto.
  destruct x; simpl; auto.
  destruct (negb (truthy (get d "delivered_at"))); auto.
  destruct (get d "delivered_at") eqn:Hget; simpl; auto.
  destruct (strptime W s) eqn:Hparse; auto.
  destruct (Z.leb_spec cutoff_time z); simpl; auto.
  apply IH. apply Forall_app. split; [assumption|].
  constructor; [|constructor]. exists s, z. auto.
Qed.

Lemma scan_page_within (W : World) (cutoff_time : Z) (data : value) (deliveries : list dict) :
  Forall (within_window W cutoff_time) deliveries ->
  Forall (within_window W cutoff_time) (scanned (scan_page W cutoff_time data deliveries)).
Proof.
  intros H. destruct data; simpl; auto. now apply scan_items_within.
Qed.

Lemma fetch_pages_unfold (W : World) (fuel : nat) (auth_headers : headers) (cutoff_time : Z)
    (url : string) (deliveries : list dict) (st : state) :
  truthy (VStr url) = true ->
  let st1 := mkState (heap st) (_instance st)
                     (log st ++ [Request (page_request url auth_headers)]) in
  fetch_pages W (S fuel) auth_headers cutoff_time url deliveries st =
  match page_of (send W (log st) (page_request url auth_headers)) with
  | None => (Ok (Some deliveries), st1)
  | Some (response, data) =>
      if negb (truthy data) then (Ok (Some deliveries), st1)
      else match scan_page W cutoff_time data deliveries with
           | Returned ds => (Ok (Some ds), st1)
           | Broke _ ds => (Ok (Some ds), st1)
           | Finished ds =>
               match next_page (match link response with
                                | Some s => s | None => EmptyString end) with
               | None => (Ok (Some ds), st1)
               | Some next_url =>
                   if negb (truthy (VStr next_url)) then (Ok (Some ds), st1)
                   else fetch_pages W fuel auth_headers cutoff_time next_url ds
                          (mkState (heap st) (_instance st) (log st1 ++ [Sleep 1]))
               end
           end
  end.
Proof.
  intros Hurl st1. cbn [fetch_pages]. rewrite Hurl. cbn [negb].
  unfold requests_send, bind at 1 2 3 4, get_log, emit, ret. fold st1.
  unfold page_of, catch, received, raise_for_status, response_json, bind, ret, raise.
  destruct (send W (log st) (page_request url auth_headers)) as [t|r]; [reflexivity|].
  destruct ((400 <=? status_code r) && (status_code r <? 600)); [reflexivity|].
  destruct (json r) as [data|]; [|reflexivity].
  destruct (negb (truthy data)); [reflexivity|].
  destruct (scan_page W cutoff_time data deliveries); try reflexivity.
  destruct (next_page _); [|reflexivity].
  destruct (negb (truthy (VStr s))); reflexivity.
Qed.

Lemma fetch_pages_within (W : World) (fuel : nat) (auth_headers : headers) (cutoff_time : Z) :
  forall (url : string) (deliveries : list dict) (st st' : state) (r : result (option (list dict))),
  Forall (within_window W cutoff_time) deliveries ->
  fetch_pages W fuel auth_headers cutoff_time url deliveries st = (r, st') ->
  exists fetched, r = Ok fetched /\
    forall ds, fetched = Some ds -> Forall (within_window W cutoff_time) ds.
Proof.
  induction fuel as [|fuel IH]; intros url deliveries st st' r Hall Hrun.
  - injection Hrun as <- _. eexists. split; [reflexivity|]. discriminate.
  - assert (Hdone : forall ds s, Forall (within_window W cutoff_time) ds ->
              (Ok (Some ds), s) = (r, st') ->
              exists fetched, r = Ok fetched /\
                forall ds, fetched = Some ds -> Forall (within_window W cutoff_time) ds).
    { intros ds s Hds [= <- _]. eexists. split; [reflexivity|]. now intros ? [= <-]. }
    destruct (truthy (VStr url)) eqn:Hurl.
    2:{ cbn [fetch_pages] in Hrun. rewrite Hurl in Hrun. eapply Hdone; eauto. }
    rewrite fetch_pages_unfold in Hrun by assumption. cbv zeta in Hrun.
    destruct (page_of _) as [[response data]|]; [|eapply Hdone; eauto].
    destruct (negb (truthy data)); [eapply Hdone; eauto|].
    pose proof (scan_page_within W cutoff_time data deliveries Hall) as Hscan.
    destruct (scan_page W cutoff_time data deliveries); simpl in Hscan;
      try (eapply Hdone; eauto; fail).
    destruct (next_page _); [|eapply Hdone; eauto].
    destruct (negb (truthy (VStr s))); [eapply Hdone; eauto|].
    eapply IH; eauto.
Qed.

Lemma cutoff_of_some (now days cutoff_time : Z) :
  cutoff_of now days = Some cutoff_time ->
  cutoff_time = now - days * microseconds_per_day.
Proof.
  unfold cutoff_of, timedelta_days, datetime_minus.
  destruct (Z.abs days <=? 999999999); [|discriminate].
  destruct ((datetime_min <=? now - days * microseconds_per_day) &&
            (now - days * microseconds_per_day <=? datetime_max)); [|discriminate].
  now intros [= <-].
Qed.

(** When the listing returns, the cutoff of line 61 was in range and the
    loop ran with it. *)
Lemma get_webhook_deliveries_ok (W : World) (fuel : nat) (auth_headers : headers)
    (days : Z) (st st' : state) (fetched : option (list dict)) :
  get_webhook_deliveries W fuel auth_headers days st = (Ok fetched, st') ->
  fetch_pages W fuel auth_headers (utcnow W (log st) - days * microseconds_per_day)
              (GITHUB_DELIVERIES_URL ++ "?per_page=100") [] st = (Ok fetched, st').
Proof.
  unfold get_webhook_deliveries, bind, get_log.
  destruct (cutoff_of (utcnow W (log st)) days) as [c|] eqn:Hc; [|discriminate].
  now rewrite (cutoff_of_some _ _ _ Hc).
Qed.



(** ** hooks.py: redelivery *)

(** [retry_webhook_delivery] never raises; it returns the decoded body of
    whatever response arrives, and None when none arrives or the body is
    not JSON.  The one request it sends has a timeout of 30 seconds. *)
Lemma retry_webhook_delivery_total (W : World) (delivery_id : value)
    (auth_headers : headers) (st : state) :
  retry_webhook_delivery W delivery_id auth_headers st =
  (Ok match send W (log st) (retry_request W delivery_id auth_headers) with
      | Responded r => match json r with Some v => v | None => VNone end
      | Failed _ => VNone
      end,
   mkState (heap st) (_instance st)
           (log st ++ [Request (retry_request W delivery_id auth_headers)])).
Proof.
  unfold retry_webhook_delivery, catch, requests_send, bind, get_log, emit, ret,
    received, response_json, raise.
  destruct (send W (log st) _) as [t|r]; [reflexivity|].
  unfold ret, raise. cbv beta iota. destruct (json r); reflexivity.
Qed.

(** C5 fails on the code: a 404 answer to the redelivery request is not
    turned into None; its body is returned. *)
Theorem retry_webhook_delivery_returns_error_body :
  timeout (retry_request hooks_world (VInt 7) []) = Some 30 /\
  send hooks_world (log cold) (retry_request hooks_world (VInt 7) []) = Responded not_found /\
  status_code not_found = 404 /\
  fst (retry_webhook_delivery hooks_world (VInt 7) [] cold) =
    Ok (VDict [("message", VStr "Not Found")]).
Proof. repeat split. Qed.

Lemma retry_each_trace (W : World) (auth_headers : headers) (ids : list value) (st : state) :
  retry_each W ids auth_headers st =
  (Ok tt,
   mkState (heap st) (_instance st)
           (log st ++ map (fun id => Request (retry_request W id auth_headers)) ids)).
Proof.
  revert st. induction ids as [|id ids IH]; intros st.
  - simpl. unfold ret. rewrite app_nil_r. now destruct st.
  - cbn [retry_each map]. unfold bind. rewrite retry_webhook_delivery_total.
    rewrite IH. cbn [heap _instance log]. now rewrite <- app_assoc.
Qed.

Lemma fetch_pages_trace (W : World) (fuel : nat) (auth_headers : headers) (cutoff_time : Z) :
  forall (url : string) (deliveries : list dict) (st st' : state)
         (r : result (option (list dict))),
  fetch_pages W fuel auth_headers cutoff_time url deliveries st = (r, st') ->
  heap st' = heap st /\ _instance st' = _instance st /\
  exists pages, appended st st' pages /\ Forall (page_event auth_headers) pages.
Proof.
  unfold appended.
  induction fuel as [|fuel IH]; intros url deliveries st st' r Hrun.
  - injection Hrun as _ <-. repeat split. exists []. now rewrite app_nil_r.
  - destruct (truthy (VStr url)) eqn:Hurl.
    2:{ cbn [fetch_pages] in Hrun. rewrite Hurl in Hrun. injection Hrun as _ <-.
        repeat split. exists []. now rewrite app_nil_r. }
    rewrite fetch_pages_unfold in Hrun by assumption. cbv zeta in Hrun.
    assert (Hone : forall x, (x, mkState (heap st) (_instance st)
                       (log st ++ [Request (page_request url auth_headers)])) = (r, st') ->
              heap st' = heap st /\ _instance st' = _instance st /\
              exists pages, log st' = (log st ++ pages)%list /\
                            Forall (page_event auth_headers) pages).
    { intros x [= _ <-]. repeat split. eexists. split; [reflexivity|].
      constructor; [|constructor]. split; reflexivity. }
    destruct (page_of _) as [[response data]|]; [|eapply Hone; eauto].
    destruct (negb (truthy data)); [eapply Hone; eauto|].
    destruct (scan_page W cutoff_time data deliveries); try (eapply Hone; eauto; fail).
    destruct (next_page _); [|eapply Hone; eauto].
    destruct (negb (truthy (VStr s))); [eapply Hone; eauto|].
    apply IH in Hrun. cbn [heap _instance log] in Hrun.
    destruct Hrun as (Hh & Hi & pages & Hlog & Hpages).
    repeat split; auto.
    exists (Request (page_request url auth_headers) :: Sleep 1 :: pages).
    split.
    + rewrite Hlog, <- !app_assoc. reflexivity.
    + constructor; [split; reflexivity|]. constructor; [exact I|assumption].
Qed.

(** C4 (as the code has it).  [retry_failed_deliveries] signs an App JWT
    itself, with [github_auth_jwt], and uses the headers made of it for
    everything it sends; the token manager is not involved and its cached
    token is neither read nor replaced.  With these headers it pages
    through the delivery log, selects the failed ids, and sends one
    redelivery request per id, in their order.  When signing fails, the
    error is swallowed and nothing is sent. *)
Theorem retry_job_signs_its_own_headers (W : World) (fuel : nat)
    (github_app_id github_app_private_key : string) (days : Z) (st : state) :
  let now := py_int (timestamp W (utcnow W (log st))) in
  match jwt_encode W (jwt_claims now github_app_id) github_app_private_key "RS256" with
  | None =>
      retry_failed_deliveries W fuel github_app_id github_app_private_key days st
        = (Ok (Some tt), st)
  | Some token =>
      let auth_headers := auth_headers_of token in
      forall (deliveries : list dict) (st1 : state),
        get_webhook_deliveries W fuel auth_headers days st = (Ok (Some deliveries), st1) ->
        (exists pages, appended st st1 pages /\ Forall (page_event auth_headers) pages) /\
        retry_failed_deliveries W fuel github_app_id github_app_private_key days st =
          (Ok (Some tt),
           mkState (heap st) (_instance st)
             (log st1 ++ map (fun id => Request (retry_request W id auth_headers))
                             (get_list_of_all_failed_delivery_ids deliveries)))
  end.
Proof.
  intros now.
  destruct (jwt_encode W _ _ _) as [token|] eqn:Hsign.
  - intros auth_headers deliveries st1 Hfetch.
    assert (Htrace : heap st1 = heap st /\ _instance st1 = _instance st /\
              exists pages, appended st st1 pages /\ Forall (page_event auth_headers) pages).
    { eapply fetch_pages_trace. apply get_webhook_deliveries_ok. exact Hfetch. }
    destruct Htrace as (Hh & Hi & Hpages). split; [exact Hpages|].
    unfold retry_failed_deliveries, catch, bind at 1.
    unfold github_auth_jwt, bind at 1, get_log. fold now. rewrite Hsign.
    unfold ret at 1. fold auth_headers. unfold bind at 1. rewrite Hfetch.
    unfold bind. rewrite retry_each_trace. unfold ret. now rewrite Hh, Hi.
  - unfold retry_failed_deliveries, catch, bind at 1.
    unfold github_auth_jwt, bind at 1, get_log. fold now. rewrite Hsign.
    reflexivity.
Qed.

Lemma retry_job_signs_its_own_headers_witness :
  exists trace,
    retry_failed_deliveries hooks_world 5 "7" "PEM" 3 warm =
      (Ok (Some tt), mkState (heap warm) (_instance warm) trace) /\
    trace =
      [ Request (page_request page1_url (auth_headers_of "eyJ.app.jwt"));
        Sleep 1;
        Request (page_request page2_url (auth_headers_of "eyJ.app.jwt"));
        Request (retry_request hooks_world (VInt 7) (auth_headers_of "eyJ.app.jwt")) ].
Proof.
  pose proof (retry_job_signs_its_own_headers hooks_world 5 "7" "PEM" 3 warm) as H.
  cbv zeta in H.
  change (jwt_encode hooks_world _ "PEM" "RS256") with (Some "eyJ.app.jwt") in H.
  cbv beta iota in H.
  destruct (H [failed_7; failed_8; fine_7]
              (snd (get_webhook_deliveries hooks_world 5 (auth_headers_of "eyJ.app.jwt") 3 warm)))
    as [_ Hrun]; [vm_compute; reflexivity|].
  eexists. split; [exact Hrun|reflexivity].
Defined.

(** C4 (as stated) fails: the headers of the retry job are not those the
    token manager hands out.  With a token cached, [get_headers] returns
    the installation token while the job sends the App JWT. *)
Lemma retry_job_does_not_use_the_token_manager :
  ~ (forall (W : World) (fuel : nat) (self : ref) (app_id private_key : string) (days : Z)
            (st st1 st2 : state) (h : headers) (done : result (option unit)) (r : request),
       get_headers W self st = (Ok h, st1) ->
       retry_failed_deliveries W fuel app_id private_key days st = (done, st2) ->
       In (Request r) (log st2) ->
       req_headers r = h).
Proof.
  intros H.
  specialize (H hooks_world 5%nat 0%nat "7" "PEM" 3 warm warm
                (snd (retry_failed_deliveries hooks_world 5 "7" "PEM" 3 warm))
                (auth_headers_of "ghs_old")
                (fst (retry_failed_deliveries hooks_world 5 "7" "PEM" 3 warm))
                (page_request page1_url (auth_headers_of "eyJ.app.jwt"))
                eq_refl (surjective_pairing _)).
  assert (Hin : In (Request (page_request page1_url (auth_headers_of "eyJ.app.jwt")))
                   (log (snd (retry_failed_deliveries hooks_world 5 "7" "PEM" 3 warm)))).
  { vm_compute. left. reflexivity. }
  specialize (H Hin). discriminate H.
Qed.

(** ** projects.py and main.py: the issues webhook *)

(** [add_to_project] sends its one request, never raises, and answers
    whether the response reports the item as added. *)
Lemma add_to_project_total (W : World) (project_node_id item_node_id : value)
    (auth_headers : headers) (st : state) :
  add_to_project W project_node_id item_node_id auth_headers st =
  (Ok (added (send W (log st) (add_item_request W project_node_id item_node_id auth_headers))),
   mkState (heap st) (_instance st)
     (log st ++ [Request (add_item_request W project_node_id item_node_id auth_headers)])).
Proof.
  unfold add_to_project, catch, requests_send, received, raise_for_status, response_json,
    py_contains, subscript, bind, get_log, emit, ret, raise,
    added, page_of, item_id_of, member.
  destruct (send W (log st) _) as [t|r]; [reflexivity|].
  destruct ((400 <=? status_code r) && (status_code r <? 600)); [reflexivity|].
  destruct (json r) as [data|]; [|reflexivity].
  destruct data as [| | | |s|l|d]; try reflexivity.
  - destruct (contains _ s); reflexivity.
  - destruct (py_in _ l); reflexivity.
  - destruct (has_key d "errors"); [reflexivity|]. cbn [negb andb].
    destruct (lookup "data" d) as [x1|]; [|reflexivity].
    destruct x1 as [| | | | | |d1]; try reflexivity.
    destruct (lookup "addProjectV2ItemById" d1) as [x2|]; [|reflexivity].
    destruct x2 as [| | | | | |d2]; try reflexivity.
    destruct (lookup "item" d2) as [x3|]; [|reflexivity].
    destruct x3 as [| | | | | |d3]; try reflexivity.
    destruct (lookup "id" d3); reflexivity.
Qed.

Lemma trigger_workflow_adds (W : World) (PROJECT_NODE_ID : value) (headers_ : headers)
    (fields issue : dict) (st : state) :
  get_default fields "issue" (VDict []) = VDict issue ->
  opened_or_reopened (get fields "action") = true ->
  truthy (get issue "node_id") = true ->
  trigger_workflow W PROJECT_NODE_ID headers_ (Some "issues") (Some (VDict fields)) st =
  (Ok (message "Issue added to project."),
   snd (add_to_project W PROJECT_NODE_ID (get issue "node_id") headers_ st)).
Proof.
  unfold opened_or_reopened. intros Hissue Haction Hnode.
  unfold trigger_workflow.
  change (String.eqb "issues" "issues") with true. cbv iota.
  unfold catch, bind, ret, raise. cbn [as_dict]. unfold ret.
  rewrite Hissue. cbn [as_dict]. unfold ret.
  rewrite Haction, Hnode. cbn [andb].
  rewrite add_to_project_total. reflexivity.
Qed.

Lemma trigger_workflow_skips (W : World) (PROJECT_NODE_ID : value) (headers_ : headers)
    (fields : dict) (st : state) :
  opened_or_reopened (get fields "action") = false ->
  snd (trigger_workflow W PROJECT_NODE_ID headers_ (Some "issues") (Some (VDict fields)) st)
    = st /\
  forall issue, get_default fields "issue" (VDict []) = VDict issue ->
    trigger_workflow W PROJECT_NODE_ID headers_ (Some "issues") (Some (VDict fields)) st =
    (Ok (message "No action taken."), st).
Proof.
  unfold opened_or_reopened. intros Haction.
  unfold trigger_workflow.
  change (String.eqb "issues" "issues") with true. cbv iota.
  unfold catch, bind, ret, raise. cbn [as_dict]. unfold ret.
  split.
  - destruct (get_default fields "issue" (VDict [])); cbn [as_dict]; unfold ret, raise;
      rewrite ?Haction; reflexivity.
  - intros issue ->. cbn [as_dict]. unfold ret. rewrite Haction. reflexivity.
Qed.

Lemma trigger_workflow_rejects (W : World) (PROJECT_NODE_ID : value) (headers_ : headers)
    (fields : dict) (st : state) :
  (forall issue, get_default fields "issue" (VDict []) <> VDict issue) ->
  trigger_workflow W PROJECT_NODE_ID headers_ (Some "issues") (Some (VDict fields)) st =
    (Raise (ExHTTPException 500 "Internal Server Error"), st).
Proof.
  intros Hbad. unfold trigger_workflow.
  change (String.eqb "issues" "issues") with true. cbv iota.
  unfold catch, bind, ret, raise. cbn [as_dict]. unfold ret.
  destruct (get_default fields "issue" (VDict [])) as [| | | | | |issue]; try reflexivity.
  now destruct (Hbad issue).
Qed.

(** C8 (as the code has it).  For an issues event whose action is opened
    or reopened and whose issue has a node_id, the handler calls
    [add_to_project] once, with that node_id as the content id: the
    mutation is the one request it sends.  For any other action nothing
    is sent and nothing changes; the reply is "No action taken." when
    the issue member is absent or an object, and the status 500 with
    "Internal Server Error" when the issue member is anything else,
    null included. *)
Theorem issues_webhook_dispatch (W : World) (PROJECT_NODE_ID : value) (headers_ : headers)
    (fields : dict) (st : state) :
  let action := get fields "action" in
  let handled :=
    trigger_workflow W PROJECT_NODE_ID headers_ (Some "issues") (Some (VDict fields)) st in
  (forall issue : dict,
     get_default fields "issue" (VDict []) = VDict issue ->
     opened_or_reopened action = true ->
     truthy (get issue "node_id") = true ->
     handled =
       (Ok (message "Issue added to project."),
        snd (add_to_project W PROJECT_NODE_ID (get issue "node_id") headers_ st)) /\
     log (snd handled) =
       (log st ++ [Request (add_item_request W PROJECT_NODE_ID (get issue "node_id") headers_)])%list) /\
  (opened_or_reopened action = false ->
     snd handled = st /\
     (forall issue : dict,
        get_default fields "issue" (VDict []) = VDict issue ->
        handled = (Ok (message "No action taken."), st)) /\
     ((forall issue : dict, get_default fields "issue" (VDict []) <> VDict issue) ->
        handled = (Raise (ExHTTPException 500 "Internal Server Error"), st))).
Proof.
  intros action handled. split.
  - intros issue Hissue Haction Hnode. subst handled.
    rewrite (trigger_workflow_adds W _ _ _ _ _ Hissue Haction Hnode).
    split; [reflexivity|]. cbn [snd]. now rewrite add_to_project_total.
  - intros Haction.
    destruct (trigger_workflow_skips W PROJECT_NODE_ID headers_ fields st Haction)
      as [Hst Hreply].
    split; [exact Hst|]. split; [exact Hreply|]. apply trigger_workflow_rejects.
Qed.

(** An opened issue is added; a closed one is passed over; a closed
    event whose issue is null is answered with 500. *)
Lemma issues_webhook_dispatch_witness :
  log (snd (trigger_workflow hooks_world (VStr "PVT_1") [] (Some "issues")
              (Some (VDict opened_I_1)) cold)) =
    [Request (add_item_request hooks_world (VStr "PVT_1") (VStr "I_1") [])] /\
  trigger_workflow hooks_world (VStr "PVT_1") [] (Some "issues") (Some (VDict closed_I_1)) cold
    = (Ok (message "No action taken."), cold) /\
  trigger_workflow hooks_world (VStr "PVT_1") [] (Some "issues")
    (Some (VDict [("action", VStr "closed"); ("issue", VNone)])) cold
    = (Raise (ExHTTPException 500 "Internal Server Error"), cold).
Proof.
  split; [|split].
  - exact (proj2 (proj1 (issues_webhook_dispatch hooks_world (VStr "PVT_1") [] opened_I_1 cold)
                    [("node_id", VStr "I_1")] eq_refl eq_refl eq_refl)).
  - exact (proj1 (proj2 (proj2 (issues_webhook_dispatch hooks_world (VStr "PVT_1") []
                                  closed_I_1 cold) eq_refl))
                 [("node_id", VStr "I_1")] eq_refl).
  - refine (proj2 (proj2 (proj2 (issues_webhook_dispatch hooks_world (VStr "PVT_1") []
                                   [("action", VStr "closed"); ("issue", VNone)] cold)
                                eq_refl)) _).
    intros issue H. discriminate H.
Defined.

(** C8 (as stated) fails: a closed event whose issue member is null is
    not answered with "No action taken." but with the status 500. *)
Lemma closed_issue_null_is_not_acknowledged :
  ~ (forall (W : World) (PROJECT_NODE_ID : value) (headers_ : headers) (fields : dict)
            (st : state),
       opened_or_reopened (get fields "action") = false ->
       fst (trigger_workflow W PROJECT_NODE_ID headers_ (Some "issues")
              (Some (VDict fields)) st) = Ok (message "No action taken.")).
Proof.
  intros H.
  specialize (H hooks_world (VStr "PVT_1") []
                [("action", VStr "closed"); ("issue", VNone)] cold eq_refl).
  discriminate H.
Qed.




(* ===================================================================== *)
(** * Further properties of the code *)
(* ===================================================================== *)

(** ** auth.py: what a token exchange leaves in the cache *)

Lemma update_update {A} (l : list A) (i : nat) (x y : A) :
  update (update l i x) i y = update l i y.
Proof.
  revert i. induction l as [|a l IH]; intros [|i]; simpl; auto. now rewrite IH.
Qed.

Lemma update_same {A} (l : list A) (i : nat) (x : A) :
  nth_error l i = Some x -> update l i x = l.
Proof.
  revert i. induction l as [|a l IH]; intros [|i] H; simpl in *; try discriminate; auto.
  - now injection H as ->.
  - now rewrite IH.
Qed.

(** Lines 103-108 of auth.py, answer by answer. *)
Lemma token_store_eval (W : World) (self : ref) (o : outcome) (st : state) (m : manager) :
  nth_error (heap st) self = Some m ->
  token_store W self o st =
  match o with
  | Failed t => (Raise (exn_of_transport t), st)
  | Responded r =>
      if (400 <=? status_code r) && (status_code r <? 600)
      then (Raise (ExHTTPError (status_code r)), st)
      else match json r with
           | None => (Raise ExJSONDecodeError, st)
           | Some (VDict d) =>
               let cached := with_token m (get d "token") in
               match get d "expires_at" with
               | VStr s =>
                   match strptime W s with
                   | Some dt =>
                       (Ok tt,
                        mkState (update (heap st) self
                                   (mkManager (github_app_installation_id m) (github_app_id m)
                                      (github_app_private_key m) (get d "token")
                                      (timestamp W dt)))
                                (_instance st) (log st))
                   | None =>
                       (Raise ExValueError,
                        mkState (update (heap st) self cached) (_instance st) (log st))
                   end
               | _ =>
                   (Raise ExTypeError,
                    mkState (update (heap st) self cached) (_instance st) (log st))
               end
           | Some _ => (Raise ExAttributeError, st)
           end
  end.
Proof.
  intros Hm.
  unfold token_store, received, raise_for_status, response_json, as_dict,
    _parse_github_time, bind, load, store, ret, raise, with_token.
  destruct o as [t|r]; [reflexivity|].
  destruct ((400 <=? status_code r) && (status_code r <? 600)); [reflexivity|].
  destruct (json r) as [data|]; [|reflexivity].
  destruct data; try reflexivity.
  rewrite Hm. cbn [heap log _instance].
  destruct (get d "expires_at"); try reflexivity.
  destruct (strptime W s); [|reflexivity].
  cbn [heap log _instance]. rewrite (nth_error_update_same _ _ _ _ Hm).
  cbn [heap log _instance github_app_installation_id github_app_id
       github_app_private_key _token].
  now rewrite update_update.
Qed.

Lemma fetch_new_token_eval (W : World) (self : ref) (st : state) (req : request) :
  token_request W self st = (Ok req, st) ->
  _fetch_new_token W self st =
  token_store W self (send W (log st) req)
    (mkState (heap st) (_instance st) (log st ++ [Request req])).
Proof.
  intros Hreq. unfold _fetch_new_token, bind at 1. rewrite Hreq.
  unfold requests_send, bind, get_log, emit, ret. reflexivity.
Qed.

(** X1.  When the token exchange gets no usable answer (the request
    fails, the status is an error, the body is not a JSON object),
    [_fetch_new_token] raises and the cached token and its expiry are as
    they were; only the request has been added to the trace. *)
Theorem token_exchange_failure_keeps_cache (W : World) (self : ref) (st : state)
    (m : manager) (req : request) :
  nth_error (heap st) self = Some m ->
  token_request W self st = (Ok req, st) ->
  (forall r d, page_of (send W (log st) req) <> Some (r, VDict d)) ->
  exists e,
    _fetch_new_token W self st =
    (Raise e, mkState (heap st) (_instance st) (log st ++ [Request req])).
Proof.
  intros Hm Hreq Hbad. rewrite (fetch_new_token_eval W self st req Hreq).
  rewrite (token_store_eval W self _ _ m) by exact Hm.
  unfold page_of in Hbad.
  destruct (send W (log st) req) as [t|r]; [eexists; reflexivity|].
  destruct ((400 <=? status_code r) && (status_code r <? 600)); [eexists; reflexivity|].
  destruct (json r) as [data|]; [|eexists; reflexivity].
  destruct data; try (eexists; reflexivity).
  exfalso. now apply (Hbad r d).
Qed.

Lemma token_exchange_failure_keeps_cache_witness :
  exists e,
    _fetch_new_token offline_world 0%nat warm =
    (Raise e,
     mkState (heap warm) (_instance warm)
       [Request (mkRequest POST (GITHUB_ACCESS_TOKENS_URL_TEMPLATE "42")
                   (auth_headers_of "eyJ.app.jwt") NoBody None)]).
Proof.
  apply (token_exchange_failure_keeps_cache offline_world 0%nat warm _ _ eq_refl eq_refl).
  intros r d. discriminate.
Defined.

(** X2.  When the answer is a JSON object whose expires_at is not a
    string that parses, [_fetch_new_token] raises TypeError or ValueError,
    but line 106 has already run: the cached token is the token of that
    answer, with the expiry of the token it replaced. *)
Theorem token_exchange_bad_expiry_keeps_token (W : World) (self : ref) (st : state)
    (m : manager) (req : request) (r : response) (d : dict) :
  nth_error (heap st) self = Some m ->
  token_request W self st = (Ok req, st) ->
  page_of (send W (log st) req) = Some (r, VDict d) ->
  (forall s, get d "expires_at" = VStr s -> strptime W s = None) ->
  exists e,
    (e = ExTypeError \/ e = ExValueError) /\
    _fetch_new_token W self st =
    (Raise e,
     mkState (update (heap st) self (with_token m (get d "token")))
             (_instance st) (log st ++ [Request req])).
Proof.
  intros Hm Hreq Hpage Hbad. rewrite (fetch_new_token_eval W self st req Hreq).
  rewrite (token_store_eval W self _ _ m) by exact Hm.
  unfold page_of in Hpage.
  destruct (send W (log st) req) as [t|r0]; [discriminate|].
  destruct ((400 <=? status_code r0) && (status_code r0 <? 600)); [discriminate|].
  destruct (json r0) as [data|]; [|discriminate].
  injection Hpage as -> ->. cbv zeta. cbn [heap _instance log].
  destruct (get d "expires_at") eqn:He; try (eexists; split; [left; reflexivity|reflexivity]).
  rewrite (Hbad s eq_refl). eexists; split; [right; reflexivity|reflexivity].
Qed.

Lemma token_exchange_bad_expiry_keeps_token_witness :
  exists e,
    (e = ExTypeError \/ e = ExValueError) /\
    _fetch_new_token undated_world 0%nat warm =
    (Raise e,
     mkState [mkManager "42" "7" "PEM" (VStr "ghs_new") (777600 # 1)%Q] (Some 0%nat)
       [Request (mkRequest POST (GITHUB_ACCESS_TOKENS_URL_TEMPLATE "42")
                   (auth_headers_of "eyJ.app.jwt") NoBody None)]).
Proof.
  refine (token_exchange_bad_expiry_keeps_token undated_world 0%nat warm _ _
            (mkResponse 201 None
               (Some (VDict [("token", VStr "ghs_new"); ("expires_at", VStr "soon")])))
            [("token", VStr "ghs_new"); ("expires_at", VStr "soon")]
            eq_refl eq_refl eq_refl _).
  intros s [= <-]. reflexivity.
Defined.

(** ** auth.py: what holds across calls *)

Lemma token_store_frame (W : World) (self : ref) (o : outcome) (st st' : state)
    (m : manager) (r : result unit) :
  nth_error (heap st) self = Some m ->
  token_store W self o st = (r, st') ->
  _instance st' = _instance st /\ log st' = log st /\
  exists m', heap st' = update (heap st) self m' /\ credentials m' = credentials m.
Proof.
  intros Hm. rewrite (token_store_eval W self o st m Hm).
  assert (Hid : forall x, (x, st) = (r, st') ->
            _instance st' = _instance st /\ log st' = log st /\
            exists m', heap st' = update (heap st) self m' /\ credentials m' = credentials m).
  { intros x [= _ <-]. repeat split. exists m. split; [|reflexivity].
    symmetry. now apply update_same. }
  destruct o as [t|resp]; [apply Hid|].
  destruct ((400 <=? status_code resp) && (status_code resp <? 600)); [apply Hid|].
  destruct (json resp) as [data|]; [|apply Hid].
  destruct data; try apply Hid. cbv zeta.
  destruct (get d "expires_at"); try destruct (strptime W s);
    intros [= _ <-]; cbn [_instance log heap]; repeat split; eexists; split; reflexivity.
Qed.

Lemma get_headers_frame (W : World) (self : ref) (st st' : state) (m : manager)
    (r : result headers) :
  nth_error (heap st) self = Some m ->
  get_headers W self st = (r, st') ->
  _instance st' = _instance st /\
  exists m', heap st' = update (heap st) self m' /\ credentials m' = credentials m.
Proof.
  intros Hm. rewrite get_headers_unfold.
  assert (Hid : forall s, s = st -> _instance s = _instance st /\
            exists m', heap s = update (heap st) self m' /\ credentials m' = credentials m).
  { intros s ->. split; [reflexivity|]. exists m. split; [|reflexivity].
    symmetry. now apply update_same. }
  destruct (check_token W self st) as [[[|]|e] st0] eqn:Hc;
    apply check_token_state in Hc; subst st0.
  - destruct (token_request W self st) as [[req|e] st0] eqn:Hreq;
      apply token_request_state in Hreq; subst st0.
    + destruct (token_store W self _ _) as [[u|e] st1] eqn:Hst.
      * eapply token_store_frame in Hst; [|exact Hm].
        cbn [heap _instance log] in Hst. destruct Hst as (Hi & _ & Hh).
        intros Hb. apply build_headers_state in Hb. now subst st'.
      * eapply token_store_frame in Hst; [|exact Hm].
        cbn [heap _instance log] in Hst. destruct Hst as (Hi & _ & Hh).
        intros [= _ <-]. now split.
    + intros [= _ <-]. now apply Hid.
  - intros Hb. apply build_headers_state in Hb. now apply Hid.
  - intros [= _ <-]. now apply Hid.
Qed.

Lemma get_headers_again (W : World) (self : ref) (st st' : state) (h : headers) :
  get_headers W self st = (Ok h, st') ->
  exists m',
    nth_error (heap st') self = Some m' /\
    h = auth_headers_of (format W (_token m')) /\
    (needs_refresh m' (time_time W (log st')) = false ->
     get_headers W self st' = (Ok h, st')).
Proof.
  intros Hrun.
  assert (Hbuilt : build_headers W self st' = (Ok h, st')).
  { revert Hrun. rewrite get_headers_unfold.
    destruct (check_token W self st) as [[[|]|e] st0]; [| |discriminate].
    - destruct (token_request W self st0) as [[req|e] st1]; [|discriminate].
      destruct (token_store W self _ _) as [[u|e] st2]; [|discriminate].
      intros Hb. pose proof (build_headers_state _ _ _ _ _ Hb) as ->. exact Hb.
    - intros Hb. pose proof (build_headers_state _ _ _ _ _ Hb) as ->. exact Hb. }
  revert Hbuilt. unfold build_headers, bind, load, ret.
  destruct (nth_error (heap st') self) as [m'|] eqn:Hm'; [|discriminate].
  intros [= <-]. exists m'. repeat split.
  intros Hfresh. now apply get_headers_fresh.
Qed.

(** X3.  Whenever [get_headers] returns, the headers carry the token
    that is in the cache at that moment; and if that token is not due for
    a refresh when the method is called again, the second call returns
    the same headers and does nothing else. *)
Theorem get_headers_returns_the_cached_token (W : World) (self : ref) (st st' : state)
    (h : headers) :
  get_headers W self st = (Ok h, st') ->
  exists m',
    nth_error (heap st') self = Some m' /\
    h = auth_headers_of (format W (_token m')) /\
    (needs_refresh m' (time_time W (log st')) = false ->
     get_headers W self st' = (Ok h, st')).
Proof. apply get_headers_again. Qed.

Lemma get_headers_returns_the_cached_token_witness :
  exists st',
    get_headers token_world 0%nat cold = (Ok (auth_headers_of "ghs_new"), st') /\
    get_headers token_world 0%nat st' = (Ok (auth_headers_of "ghs_new"), st').
Proof.
  eexists. split; [reflexivity|].
  destruct (get_headers_returns_the_cached_token token_world 0%nat cold _ _ eq_refl)
    as (m' & Hm' & _ & Hagain).
  injection Hm' as <-. apply Hagain. reflexivity.
Defined.

Lemma perform_keeps_singleton (W : World) (i a k : string) (st : state) (c : call) :
  (_instance st = Some 0%nat /\
   exists token expires_at, heap st = [mkManager i a k token expires_at]) ->
  _instance (perform W st c) = Some 0%nat /\
  exists token expires_at, heap (perform W st c) = [mkManager i a k token expires_at].
Proof.
  intros (Hi & token & expires_at & Hh). destruct c as [i' a' k'|]; simpl.
  - rewrite (constructor_reuses_instance st 0%nat i' a' k' Hi). simpl. eauto.
  - rewrite Hi.
    destruct (get_headers W 0%nat st) as [r st'] eqn:Hrun.
    eapply get_headers_frame in Hrun; [|rewrite Hh; reflexivity].
    destruct Hrun as (Hi' & m' & Hh' & Hc). simpl. split; [congruence|].
    rewrite Hh' , Hh. simpl. destruct m' as [i0 a0 k0 t0 e0].
    unfold credentials in Hc. simpl in Hc. injection Hc as -> -> ->. eauto.
Qed.

(** X4.  Once the manager has been constructed in a new process, the
    process holds exactly one manager object, and it keeps the
    credentials of that first construction, however many times the
    manager is constructed again and asked for headers, and whatever the
    token exchanges answer. *)
Theorem manager_calls_keep_the_singleton (W : World) (i a k : string)
    (trace : list event) (calls : list call) :
  let st := fold_left (perform W) calls
              (snd (GitHubInstallationTokenManager i a k (mkState [] None trace))) in
  _instance st = Some 0%nat /\
  exists token expires_at, heap st = [mkManager i a k token expires_at].
Proof.
  cbv zeta.
  assert (H0 : _instance (snd (GitHubInstallationTokenManager i a k (mkState [] None trace)))
               = Some 0%nat /\
               exists token expires_at,
                 heap (snd (GitHubInstallationTokenManager i a k (mkState [] None trace)))
                 = [mkManager i a k token expires_at]).
  { simpl. eauto. }
  revert H0. generalize (snd (GitHubInstallationTokenManager i a k (mkState [] None trace))).
  induction calls as [|c calls IH]; intros st H0; simpl; [exact H0|].
  apply IH. now apply perform_keeps_singleton.
Qed.

(** X5.  An exchange answer without a token member is not an error: with
    an expiry that parses, [get_headers] returns headers made of None,
    caches None, and so refreshes again on every later call. *)
Theorem missing_token_member_is_cached_as_none (W : World) (self : ref) (st : state)
    (m : manager) (req : request) (r : response) (d : dict) (s : string) (dt : Z) :
  nth_error (heap st) self = Some m ->
  needs_refresh m (time_time W (log st)) = true ->
  token_request W self st = (Ok req, st) ->
  page_of (send W (log st) req) = Some (r, VDict d) ->
  lookup "token" d = None ->
  get d "expires_at" = VStr s ->
  strptime W s = Some dt ->
  exists st' m',
    get_headers W self st = (Ok (auth_headers_of (format W VNone)), st') /\
    nth_error (heap st') self = Some m' /\
    _token m' = VNone /\
    forall now, needs_refresh m' now = true.
Proof.
  intros Hm Hstale Hreq Hpage Htoken Hexp Hparse.
  rewrite (get_headers_stale W self st m Hm Hstale).
  unfold bind at 1. rewrite (fetch_new_token_eval W self st req Hreq).
  rewrite (token_store_eval W self _ _ m) by exact Hm.
  unfold page_of in Hpage.
  destruct (send W (log st) req) as [t|r0]; [discriminate|].
  destruct ((400 <=? status_code r0) && (status_code r0 <? 600)); [discriminate|].
  destruct (json r0) as [data|]; [|discriminate].
  injection Hpage as -> ->. cbv zeta. rewrite Hexp, Hparse.
  assert (Hget : get d "token" = VNone) by (unfold get; now rewrite Htoken).
  rewrite Hget. cbn [heap _instance log].
  unfold build_headers, bind, load, ret. cbn [heap].
  rewrite (nth_error_update_same _ _ _ _ Hm). cbn [_token].
  eexists _, _. split; [reflexivity|]. cbn [heap].
  split; [apply (nth_error_update_same _ _ _ _ Hm)|]. split; reflexivity.
Qed.

Lemma missing_token_member_is_cached_as_none_witness :
  fst (get_headers tokenless_world 0%nat cold) = Ok (auth_headers_of "None").
Proof.
  destruct (missing_token_member_is_cached_as_none tokenless_world 0%nat cold _ _
              (mkResponse 201 None (Some (VDict [("expires_at", VStr t_jan10)])))
              [("expires_at", VStr t_jan10)] t_jan10 (9 * microseconds_per_day)
              eq_refl eq_refl eq_refl eq_refl eq_refl eq_refl eq_refl)
    as (st' & m' & Hrun & _).
  rewrite Hrun. reflexivity.
Defined.

(** ** hooks.py: the Link header *)

Lemma prefix_empty (s : string) : String.prefix EmptyString s = true.
Proof. now destruct s. Qed.

Lemma contains_skip (x p s : string) :
  contains p s = true -> contains p (x ++ s) = true.
Proof.
  unfold contains. intros H. induction x as [|a x IH]; cbn [append]; [exact H|].
  cbn [String.index]. destruct (String.prefix p (String a (x ++ s))); [reflexivity|].
  destruct (String.index 0 p (x ++ s)); [reflexivity|discriminate].
Qed.

Lemma split_free (c : ascii) (s : string) :
  free_of [c] s = true -> split c s = [s].
Proof.
  induction s as [|a s IH]; simpl; [reflexivity|].
  rewrite orb_false_r. intros H. apply andb_true_iff in H. destruct H as [Ha Hs].
  apply negb_true_iff in Ha. rewrite Ha, (IH Hs). reflexivity.
Qed.

Lemma free_of_append (chars : list ascii) (s t : string) :
  free_of chars (s ++ t) = free_of chars s && free_of chars t.
Proof.
  induction s as [|a s IH]; simpl; [reflexivity|]. now rewrite IH, andb_assoc.
Qed.

Lemma free_of_one (c : ascii) (chars : list ascii) (s : string) :
  In c chars -> free_of chars s = true -> free_of [c] s = true.
Proof.
  intros Hin. induction s as [|a s IH]; simpl; [reflexivity|].
  rewrite orb_false_r. intros H. apply andb_true_iff in H. destruct H as [Ha Hs].
  rewrite (IH Hs), andb_true_r. apply negb_true_iff in Ha. apply negb_true_iff.
  destruct (Ascii.eqb a c) eqn:E; [|reflexivity].
  apply Ascii.eqb_eq in E. subst c.
  assert (existsb (Ascii.eqb a) chars = true); [|congruence].
  apply existsb_exists. exists a. split; [assumption|apply Ascii.eqb_refl].
Qed.

Lemma index_first (c : ascii) (u s : string) :
  free_of [c] u = true ->
  String.index 0 (String c EmptyString) (u ++ String c s) = Some (String.length u).
Proof.
  induction u as [|a u IH]; simpl.
  - intros _. destruct (ascii_dec c c); [now rewrite prefix_empty|congruence].
  - rewrite orb_false_r. intros H. apply andb_true_iff in H. destruct H as [Ha Hu].
    apply negb_true_iff in Ha.
    destruct (ascii_dec c a) as [->|_]; [now rewrite Ascii.eqb_refl in Ha|].
    now rewrite (IH Hu).
Qed.

Lemma substring_append (u s : string) :
  String.substring 0 (String.length u) (u ++ s) = u.
Proof.
  induction u as [|a u IH]; simpl; [now destruct s|]. now rewrite IH.
Qed.

Lemma length_append (s t : string) :
  String.length (s ++ t) = (String.length s + String.length t)%nat.
Proof. induction s as [|a s IH]; simpl; [reflexivity|]. now rewrite IH. Qed.

(** X6.  The next page is read back from a Link header that names it:
    for a URL without comma and angle brackets, the header
    <URL>; rel="next" gives that URL. *)
Theorem next_page_of_link (u : string) :
  free_of [","%char; "<"%char; ">"%char] u = true ->
  next_page ("<" ++ u ++ ">; rel=" ++ dquote ++ "next" ++ dquote) = Some u.
Proof.
  intros Hfree.
  assert (Hcomma : free_of [","%char] u = true).
  { eapply free_of_one; [|exact Hfree]. simpl. auto. }
  assert (Hgt : free_of [">"%char] u = true).
  { eapply free_of_one; [|exact Hfree]. simpl. auto. }
  set (tail := ("; rel=" ++ dquote ++ "next" ++ dquote)%string).
  change ("<" ++ u ++ ">; rel=" ++ dquote ++ "next" ++ dquote)%string
    with (String "<" (u ++ String ">" tail)).
  unfold next_page.
  assert (Hrel : contains rel_next (String "<" (u ++ String ">" tail)) = true).
  { change (String "<" (u ++ String ">" tail))
      with (("<" ++ u) ++ String ">" tail)%string.
    apply contains_skip. reflexivity. }
  rewrite Hrel.
  rewrite split_free.
  2:{ cbn [free_of existsb]. rewrite free_of_append, Hcomma. reflexivity. }
  cbn [first_next]. rewrite Hrel. f_equal.
  unfold find.
  assert (Hlt : String.index 0 "<" (String "<" (u ++ String ">" tail)) = Some 0%nat).
  { cbn [String.index String.prefix].
    destruct (ascii_dec "<" "<"); [now rewrite prefix_empty|congruence]. }
  assert (Hfind : String.index 0 ">" (String "<" (u ++ String ">" tail))
                  = Some (S (String.length u))).
  { cbn [String.index String.prefix].
    destruct (ascii_dec ">" "<"); [discriminate|].
    now rewrite (index_first ">"%char u tail Hgt). }
  rewrite Hlt, Hfind. unfold slice, clip. cbn [String.length].
  rewrite length_append. cbn [String.length].
  replace (Z.of_nat 0 + 1 <? 0) with false by reflexivity.
  replace (Z.of_nat (S (String.length u)) <? 0) with false
    by (symmetry; apply Z.ltb_ge; lia).
  rewrite !Z.min_l by lia.
  destruct u as [|a u].
  - reflexivity.
  - replace (Z.of_nat 0 + 1 <? Z.of_nat (S (String.length (String a u)))) with true
      by (symmetry; apply Z.ltb_lt; cbn [String.length]; lia).
    replace (Z.to_nat (Z.of_nat 0 + 1)) with 1%nat by reflexivity.
    replace (Z.to_nat (Z.of_nat (S (String.length (String a u))) - (Z.of_nat 0 + 1)))
      with (String.length (String a u)) by lia.
    cbn [String.substring]. fold (String.length (String a u)).
    change (String a (u ++ String ">" tail)) with (String a u ++ String ">" tail)%string.
    apply substring_append.
Qed.

Lemma next_page_of_link_witness : next_page (link_to page2_url) = Some page2_url.
Proof. apply (next_page_of_link page2_url). reflexivity. Defined.

(** ** hooks.py: a whole listing *)

Lemma scan_items_recent (W : World) (cutoff_time : Z) (fresh deliveries : list dict) :
  Forall (recent W cutoff_time) fresh ->
  scan_items W cutoff_time (map VDict fresh) deliveries = Finished (deliveries ++ fresh)%list.
Proof.
  intros H. revert deliveries. induction H as [|d fresh Hd _ IH]; intros deliveries; simpl.
  - now rewrite app_nil_r.
  - destruct Hd as (s & t & Hget & Hs & Hparse & Hle).
    rewrite Hget, Hs, Hparse. cbn [negb].
    destruct (Z.leb_spec cutoff_time t); [|lia].
    rewrite IH, <- app_assoc. reflexivity.
Qed.

Lemma paged_url (W : World) (auth_headers : headers) (cutoff_time : Z) (url : string)
    (pages : list (string * list dict)) :
  paged W auth_headers cutoff_time url pages ->
  truthy (VStr url) = true /\ pages <> [].
Proof. intros H. destruct H; split; auto; discriminate. Qed.

Lemma fetch_pages_paged (W : World) (auth_headers : headers) (cutoff_time : Z)
    (url : string) (pages : list (string * list dict)) :
  paged W auth_headers cutoff_time url pages ->
  forall (fuel : nat) (deliveries : list dict) (st : state),
  (List.length pages <= fuel)%nat ->
  fetch_pages W fuel auth_headers cutoff_time url deliveries st =
  (Ok (Some (deliveries ++ List.concat (map snd pages))%list),
   mkState (heap st) (_instance st) (log st ++ paging_trace auth_headers pages)%list).
Proof.
  intros H. induction H as [url r ds Hurl Hsend Hstatus Hjson Hrecent Hnext
                           |url Hurl Hsend
                           |url next r ds rest Hurl Hsend Hstatus Hjson Hne Hrecent Hnext Hrest IH];
    intros fuel deliveries st Hfuel;
    (destruct fuel as [|fuel]; [simpl in Hfuel; lia|]);
    rewrite fetch_pages_unfold by assumption; cbv zeta.
  - unfold page_of. rewrite Hsend, Hstatus, Hjson.
    cbn [map snd List.concat paging_trace]. rewrite app_nil_r.
    destruct ds as [|d ds]; [now rewrite app_nil_r|].
    cbn [map].
    change (truthy (VList (VDict d :: map VDict ds))) with true. cbn [negb scan_page].
    change (VDict d :: map VDict ds) with (map VDict (d :: ds)).
    rewrite (scan_items_recent W cutoff_time (d :: ds) deliveries Hrecent).
    unfold link_header_of in Hnext. now rewrite Hnext.
  - rewrite Hsend. cbn [map snd List.concat paging_trace]. now rewrite !app_nil_r.
  - unfold page_of. rewrite Hsend, Hstatus, Hjson.
    destruct ds as [|d ds]; [contradiction|].
    cbn [map].
    change (truthy (VList (VDict d :: map VDict ds))) with true. cbn [negb scan_page].
    change (VDict d :: map VDict ds) with (map VDict (d :: ds)).
    rewrite (scan_items_recent W cutoff_time (d :: ds) deliveries Hrecent).
    unfold link_header_of in Hnext. rewrite Hnext.
    destruct (paged_url _ _ _ _ _ Hrest) as [Hnexturl Hrestne].
    rewrite Hnexturl. cbn [negb].
    rewrite IH by (simpl in Hfuel; lia).
    cbn [heap _instance log map snd List.concat paging_trace].
    destruct rest as [|p rest]; [contradiction|].
    rewrite <- !app_assoc. reflexivity.
Qed.

(** X7.  When the cutoff of line 61 is in the range of datetime, the
    delivery log is served in pages of recent deliveries, each naming the
    next in its Link header, and the loop is given as many rounds as
    there are pages, [get_webhook_deliveries] returns the deliveries of
    all pages in order; it requests each page once, sleeps one second
    between two pages, and stops at the page that names no successor or
    that cannot be had, keeping what it has. *)
Theorem listing_collects_all_pages (W : World) (auth_headers : headers)
    (days_to_reprocess cutoff_time : Z) (st : state) (pages : list (string * list dict))
    (fuel : nat) :
  cutoff_of (utcnow W (log st)) days_to_reprocess = Some cutoff_time ->
  paged W auth_headers cutoff_time (GITHUB_DELIVERIES_URL ++ "?per_page=100") pages ->
  (List.length pages <= fuel)%nat ->
  get_webhook_deliveries W fuel auth_headers days_to_reprocess st =
  (Ok (Some (List.concat (map snd pages))),
   mkState (heap st) (_instance st) (log st ++ paging_trace auth_headers pages)%list).
Proof.
  intros Hcutoff Hpaged Hfuel. unfold get_webhook_deliveries, bind, get_log.
  rewrite Hcutoff.
  now rewrite (fetch_pages_paged W auth_headers _ _ pages Hpaged fuel [] st Hfuel).
Qed.

Lemma listing_collects_all_pages_witness :
  get_webhook_deliveries one_page_world 1 [] 3 cold =
  (Ok (Some [failed_7; fine_7]),
   mkState (heap cold) (_instance cold) [Request (page_request page1_url [])]).
Proof.
  apply (listing_collects_all_pages one_page_world [] 3 (4 * microseconds_per_day) cold
           [(page1_url, [failed_7; fine_7])]);
    [reflexivity| |apply Nat.le_refl].
  apply (last_page one_page_world [] _ page1_url
           (mkResponse 200 None (Some (VList [VDict failed_7; VDict fine_7])))
           [failed_7; fine_7]); try reflexivity.
  repeat constructor; exists t_jan07, (6 * microseconds_per_day);
    repeat split; try reflexivity; vm_compute; discriminate.
Defined.

(** X8.  Deliveries without a delivered_at, or with one that does not
    parse, do not influence a page scan: it ends as it would without
    them, with the same deliveries kept. *)
Theorem scan_passes_over_untimed (W : World) (cutoff_time : Z) (items : list value)
    (deliveries : list dict) :
  scan_items W cutoff_time items deliveries =
  scan_items W cutoff_time (filter (fun item => negb (passed_over W item)) items) deliveries.
Proof.
  revert deliveries. induction items as [|x items IH]; intros deliveries; [reflexivity|].
  cbn [filter]. destruct x; try reflexivity.
  cbn [passed_over scan_items].
  destruct (truthy (get d "delivered_at")) eqn:Ht; cbn [negb orb]; [|apply IH].
  destruct (get d "delivered_at") eqn:Hg; cbn [negb scan_items];
    rewrite ?Hg, ?Ht; cbn [negb]; try reflexivity.
  destruct (strptime W s) eqn:Hp; cbn [negb scan_items].
  - rewrite Hg, Ht, Hp. cbn [negb]. destruct (cutoff_time <=? z); [apply IH|reflexivity].
  - apply IH.
Qed.

Lemma cutoff_of_none (now days : Z) :
  cutoff_of now days = None <->
  999999999 < Z.abs days \/
  now - days * microseconds_per_day < datetime_min \/
  datetime_max < now - days * microseconds_per_day.
Proof.
  unfold cutoff_of, timedelta_days, datetime_minus.
  destruct (Z.leb_spec (Z.abs days) 999999999) as [Hd|Hd].
  - destruct (Z.leb_spec datetime_min (now - days * microseconds_per_day)) as [H1|H1];
      destruct (Z.leb_spec (now - days * microseconds_per_day) datetime_max) as [H2|H2];
      cbn [andb]; split; intros H; try discriminate; try lia; auto.
  - split; auto.
Qed.

(** X9.  The one exception [get_webhook_deliveries] raises is the
    OverflowError of line 61, which is outside the [try]: it is raised,
    before anything is sent, exactly when the number of days exceeds
    999999999 in magnitude or the cutoff leaves the range of datetime.
    In every other case the function raises nothing, for as many rounds
    of its loop as it is run; it never touches the token manager, and
    everything it does is GET requests carrying the headers it was given,
    and sleeps. *)
Theorem listing_raises_only_overflow (W : World) (fuel : nat) (auth_headers : headers)
    (days_to_reprocess : Z) (st : state) :
  let cutoff_time := utcnow W (log st) - days_to_reprocess * microseconds_per_day in
  (999999999 < Z.abs days_to_reprocess \/ cutoff_time < datetime_min \/
   datetime_max < cutoff_time ->
   get_webhook_deliveries W fuel auth_headers days_to_reprocess st
     = (Raise ExOverflowError, st)) /\
  (Z.abs days_to_reprocess <= 999999999 ->
   datetime_min <= cutoff_time <= datetime_max ->
   exists fetched st',
     get_webhook_deliveries W fuel auth_headers days_to_reprocess st = (Ok fetched, st') /\
     heap st' = heap st /\ _instance st' = _instance st /\
     exists events, appended st st' events /\ Forall (page_event auth_headers) events).
Proof.
  cbv zeta. split.
  - intros Hout. apply cutoff_of_none in Hout.
    unfold get_webhook_deliveries, bind, get_log. now rewrite Hout.
  - intros Hdays Hrange.
    unfold get_webhook_deliveries, bind, get_log.
    destruct (cutoff_of (utcnow W (log st)) days_to_reprocess) as [c|] eqn:Hc.
    2:{ apply cutoff_of_none in Hc. lia. }
    destruct (fetch_pages W fuel auth_headers c _ [] st) as [r st'] eqn:Hrun.
    destruct (fetch_pages_within W fuel auth_headers _ _ _ _ _ _ (Forall_nil _) Hrun)
      as (fetched & -> & _).
    apply fetch_pages_trace in Hrun. destruct Hrun as (Hh & Hi & Hev).
    exists fetched, st'. auto.
Qed.

Lemma listing_raises_only_overflow_witness :
  get_webhook_deliveries one_page_world 1 [] 1000000 cold = (Raise ExOverflowError, cold) /\
  fst (get_webhook_deliveries one_page_world 1 [] 3 cold) = Ok (Some [failed_7; fine_7]).
Proof.
  split.
  - apply (proj1 (listing_raises_only_overflow one_page_world 1 [] 1000000 cold)).
    right. left. reflexivity.
  - destruct (proj2 (listing_raises_only_overflow one_page_world 1 [] 3 cold))
      as (fetched & st' & Hrun & _).
    + vm_compute. discriminate.
    + split; vm_compute; discriminate.
    + rewrite Hrun. cbn [fst]. vm_compute in Hrun. now injection Hrun as <- _.
Defined.

(** ** hooks.py: the selection of failed deliveries, further *)

Lemma py_in_snoc (x g : value) (seen : list value) :
  py_in x (seen ++ [g]) = py_in x seen || py_eq g x.
Proof. unfold py_in. rewrite existsb_app. simpl. now rewrite orb_false_r. Qed.

Lemma first_per_guid_distinct (seen : list value) (deliveries : list dict) :
  Forall (fun d => py_in (get d "guid") seen = false) (first_per_guid seen deliveries) /\
  ForallOrdPairs (fun d d' => py_eq (get d "guid") (get d' "guid") = false)
                 (first_per_guid seen deliveries).
Proof.
  revert seen. induction deliveries as [|d rest IH]; intros seen; simpl.
  - split; constructor.
  - destruct (py_in (get d "guid") seen) eqn:Hin; [apply IH|].
    destruct (IH (seen ++ [get d "guid"])%list) as [Hseen Hpairs].
    assert (Hboth : Forall (fun d' => py_in (get d' "guid") seen = false /\
                                      py_eq (get d "guid") (get d' "guid") = false)
                           (first_per_guid (seen ++ [get d "guid"]) rest)).
    { eapply Forall_impl; [|exact Hseen]. intros d' H'. cbv beta in H'.
      rewrite py_in_snoc in H'. now apply orb_false_iff in H'. }
    split.
    + constructor; [exact Hin|]. eapply Forall_impl; [|exact Hboth]. now intros d' [? _].
    + constructor; [|exact Hpairs]. eapply Forall_impl; [|exact Hboth]. now intros d' [_ ?].
Qed.

Lemma first_per_guid_length (seen : list value) (deliveries : list dict) :
  (List.length (first_per_guid seen deliveries) <= List.length deliveries)%nat.
Proof.
  revert seen. induction deliveries as [|d rest IH]; intros seen; simpl; [lia|].
  destruct (py_in (get d "guid") seen).
  - specialize (IH seen). lia.
  - specialize (IH (seen ++ [get d "guid"])%list). simpl. lia.
Qed.

(** X10.  No guid is retried twice: the ids returned belong to failed
    deliveries of the list whose guids differ pairwise, and there are no
    more of them than deliveries. *)
Theorem failed_ids_have_distinct_guids (deliveries : list dict) :
  exists selected,
    get_list_of_all_failed_delivery_ids deliveries = map (fun d => get d "id") selected /\
    (List.length selected <= List.length deliveries)%nat /\
    Forall (fun d => In d deliveries /\
                     py_eq (get d "status_code") (VInt 200) = false /\
                     truthy (get d "id") = true) selected /\
    ForallOrdPairs (fun d d' => py_eq (get d "guid") (get d' "guid") = false) selected.
Proof.
  exists (first_per_guid [] (filter retriable deliveries)).
  split; [|split; [|split]].
  - unfold get_list_of_all_failed_delivery_ids. now rewrite failed_ids_loop_spec.
  - etransitivity; [apply first_per_guid_length|apply filter_length_le].
  - apply Forall_forall. intros d Hd.
    apply first_per_guid_incl, filter_In in Hd. destruct Hd as [Hin Hr].
    unfold retriable in Hr. apply andb_true_iff in Hr. destruct Hr as [Hs Hid].
    apply negb_true_iff in Hs. auto.
  - apply first_per_guid_distinct.
Qed.

(** X11.  The selection reads the status_code, the guid and the id of a
    delivery and nothing else: lists that agree on these three fields,
    delivery by delivery, give the same ids (the redelivery flag is only
    logged). *)
Theorem failed_ids_read_three_fields (deliveries deliveries' : list dict) :
  Forall2 same_selection_fields deliveries deliveries' ->
  get_list_of_all_failed_delivery_ids deliveries =
  get_list_of_all_failed_delivery_ids deliveries'.
Proof.
  unfold get_list_of_all_failed_delivery_ids. generalize (@nil value) at 1 3.
  generalize (@nil value). intros guids ids H. revert ids guids.
  induction H as [|d d' ds ds' (Hs & Hg & Hi) _ IH]; intros ids guids; simpl; [reflexivity|].
  rewrite Hs, Hg, Hi.
  destruct (negb (py_eq (get d' "status_code") (VInt 200)) &&
            negb (py_in (get d' "guid") guids) && truthy (get d' "id")); apply IH.
Qed.

Lemma failed_ids_read_three_fields_witness :
  get_list_of_all_failed_delivery_ids [failed_7; old_5] =
  get_list_of_all_failed_delivery_ids
    [delivery 7 "a" 500 t_jan02 false; delivery 5 "c" 500 t_jan07 true].
Proof.
  apply failed_ids_read_three_fields.
  repeat constructor.
Defined.

(** ** hooks.py: redelivery, further *)

(** X12.  [retry_webhook_delivery] never raises.  It sends one POST to
    the attempts URL of the delivery, with a timeout of 30 seconds, and
    returns None when the request fails or the answer is not JSON. *)
Theorem retry_webhook_delivery_never_raises (W : World) (delivery_id : value)
    (auth_headers : headers) (st : state) :
  exists v,
    retry_webhook_delivery W delivery_id auth_headers st =
      (Ok v,
       mkState (heap st) (_instance st)
         (log st ++ [Request (mkRequest POST
                       ("https://api.github.com/app/hook/deliveries/"
                        ++ format W delivery_id ++ "/attempts")
                       auth_headers NoBody (Some 30))])) /\
    ((forall r, send W (log st) (retry_request W delivery_id auth_headers) = Responded r ->
                json r = None) ->
     v = VNone).
Proof.
  rewrite retry_webhook_delivery_total. eexists. split; [reflexivity|].
  intros Hjson.
  destruct (send W (log st) (retry_request W delivery_id auth_headers)) as [t|r];
    [reflexivity|].
  now rewrite (Hjson r eq_refl).
Qed.

Lemma retry_webhook_delivery_never_raises_witness :
  fst (retry_webhook_delivery one_page_world (VInt 7) [] cold) = Ok VNone.
Proof.
  destruct (retry_webhook_delivery_never_raises one_page_world (VInt 7) [] cold)
    as (v & Hrun & Hnone).
  rewrite Hrun. cbn [fst]. f_equal. apply Hnone.
  intros r H. vm_compute in H. discriminate H.
Defined.

(** X13.  One failing retry does not abort the batch: whatever the
    answers, [retry_each] sends one redelivery request per id, in the
    order of the ids, and does not raise. *)
Theorem retry_each_covers_every_id (W : World) (auth_headers : headers) (ids : list value)
    (st : state) :
  retry_each W ids auth_headers st =
  (Ok tt,
   mkState (heap st) (_instance st)
     (log st ++ map (fun id => Request (retry_request W id auth_headers)) ids)).
Proof. apply retry_each_trace. Qed.

(** X14.  [retry_failed_deliveries] never raises and never touches the
    token manager, whatever GitHub answers and whether or not the
    assertion can be signed. *)
Theorem retry_job_never_raises (W : World) (fuel : nat)
    (github_app_id github_app_private_key : string) (days : Z) (st : state) :
  exists done st',
    retry_failed_deliveries W fuel github_app_id github_app_private_key days st
      = (Ok done, st') /\
    heap st' = heap st /\ _instance st' = _instance st.
Proof.
  unfold retry_failed_deliveries, catch, bind at 1.
  unfold github_auth_jwt, bind at 1, get_log.
  destruct (jwt_encode W _ _ _) as [token|]; [|do 2 eexists; repeat split].
  unfold ret at 1. unfold bind at 1.
  destruct (get_webhook_deliveries W fuel (auth_headers_of token) days st)
    as [r st1] eqn:Hlist.
  assert (Hframe : heap st1 = heap st /\ _instance st1 = _instance st /\
            (r = Raise ExOverflowError \/ exists fetched, r = Ok fetched)).
  { revert Hlist. unfold get_webhook_deliveries, bind, get_log.
    destruct (cutoff_of (utcnow W (log st)) days) as [c|].
    - intros Hrun.
      destruct (fetch_pages_within W fuel _ _ _ _ _ _ _ (Forall_nil _) Hrun)
        as (fetched & -> & _).
      apply fetch_pages_trace in Hrun. destruct Hrun as (Hh & Hi & _). eauto.
    - intros [= <- <-]. auto. }
  destruct Hframe as (Hh & Hi & [->|(fetched & ->)]);
    [do 2 eexists; repeat split; assumption|].
  destruct fetched as [deliveries|]; [|do 2 eexists; repeat split; assumption].
  unfold bind. rewrite retry_each_trace. unfold ret.
  do 2 eexists. split; [reflexivity|]. cbn [heap _instance]. now split.
Qed.

(** X15.  With a cutoff in the range of datetime, on a paged delivery
    log, with as many rounds as pages and a key that signs, the retry job
    does this and nothing else: it requests each page once, with the App
    JWT, then sends one redelivery request per failed id of all the
    pages, in order, with the same headers. *)
Theorem retry_job_on_a_paged_log (W : World) (fuel : nat)
    (github_app_id github_app_private_key token : string) (days cutoff_time : Z)
    (st : state) (pages : list (string * list dict)) :
  jwt_encode W (jwt_claims (py_int (timestamp W (utcnow W (log st)))) github_app_id)
             github_app_private_key "RS256" = Some token ->
  cutoff_of (utcnow W (log st)) days = Some cutoff_time ->
  paged W (auth_headers_of token) cutoff_time
        (GITHUB_DELIVERIES_URL ++ "?per_page=100") pages ->
  (List.length pages <= fuel)%nat ->
  retry_failed_deliveries W fuel github_app_id github_app_private_key days st =
  (Ok (Some tt),
   mkState (heap st) (_instance st)
     (log st ++ paging_trace (auth_headers_of token) pages
      ++ map (fun id => Request (retry_request W id (auth_headers_of token)))
             (get_list_of_all_failed_delivery_ids (List.concat (map snd pages))))%list).
Proof.
  intros Hsign Hcutoff Hpaged Hfuel.
  unfold retry_failed_deliveries, catch, bind at 1.
  unfold github_auth_jwt, bind at 1, get_log. rewrite Hsign.
  unfold ret at 1. unfold bind at 1.
  unfold get_webhook_deliveries, bind at 1, get_log. rewrite Hcutoff.
  rewrite (fetch_pages_paged W _ _ _ pages Hpaged fuel [] st Hfuel).
  cbn [app]. unfold bind. rewrite retry_each_trace. unfold ret.
  cbn [heap _instance log]. now rewrite <- app_assoc.
Qed.

Lemma retry_job_on_a_paged_log_witness :
  retry_failed_deliveries one_page_world 1 "7" "PEM" 3 cold =
  (Ok (Some tt),
   mkState (heap cold) (_instance cold)
     [ Request (page_request page1_url (auth_headers_of "eyJ.app.jwt"));
       Request (retry_request one_page_world (VInt 7) (auth_headers_of "eyJ.app.jwt")) ]).
Proof.
  apply (retry_job_on_a_paged_log one_page_world 1 "7" "PEM" "eyJ.app.jwt" 3
           (4 * microseconds_per_day) cold [(page1_url, [failed_7; fine_7])]);
    [reflexivity|reflexivity| |apply Nat.le_refl].
  apply (last_page one_page_world _ _ page1_url
           (mkResponse 200 None (Some (VList [VDict failed_7; VDict fine_7])))
           [failed_7; fine_7]); try reflexivity.
  repeat constructor; exists t_jan07, (6 * microseconds_per_day);
    repeat split; try reflexivity; vm_compute; discriminate.
Defined.

(** ** projects.py: the two GraphQL calls *)

(** X16.  [add_to_project] never raises: it sends its one request and
    answers True or False.  It answers True exactly when the response has
    no error status and its body is a JSON object without an errors
    member in which data.addProjectV2ItemById.item.id is present, and
    False in every other case. *)
Theorem add_to_project_true_iff (W : World) (project_node_id item_node_id : value)
    (auth_headers : headers) (st : state) :
  exists b : bool,
    add_to_project W project_node_id item_node_id auth_headers st =
      (Ok b,
       mkState (heap st) (_instance st)
         (log st ++ [Request (add_item_request W project_node_id item_node_id
                                auth_headers)])) /\
    (b = true <->
     exists r d item_id,
       send W (log st) (add_item_request W project_node_id item_node_id auth_headers)
         = Responded r /\
       (400 <=? status_code r) && (status_code r <? 600) = false /\
       json r = Some (VDict d) /\
       lookup "errors" d = None /\
       item_id_of (VDict d) = Some item_id).
Proof.
  rewrite add_to_project_total. eexists. split; [reflexivity|].
  unfold added, page_of, has_key.
  assert (Hno : forall P : Prop, (P -> False) -> false = true <-> P).
  { intros P HP. split; [discriminate|]. intros H. destruct (HP H). }
  destruct (send W (log st) _) as [t|r].
  - apply Hno. intros (r & d & x & H1 & _). discriminate.
  - destruct ((400 <=? status_code r) && (status_code r <? 600)) eqn:Hs.
    + apply Hno. intros (r' & d & x & H1 & H2 & _). congruence.
    + destruct (json r) as [data|] eqn:Hj.
      2:{ apply Hno. intros (r' & d & x & H1 & _ & H3 & _). congruence. }
      destruct data as [| | | | | |d];
        try (apply Hno; intros (r' & d' & x & H1 & _ & H3 & _); congruence).
      destruct (lookup "errors" d) eqn:He; cbn [negb andb].
      * apply Hno. intros (r' & d' & x & H1 & _ & H3 & H4 & _). congruence.
      * destruct (item_id_of (VDict d)) as [x|] eqn:Hid.
        -- split; [|reflexivity]. intros _. exists r, d, x. auto.
        -- apply Hno. intros (r' & d' & x & H1 & _ & H3 & _ & H5). congruence.
Qed.

Lemma add_to_project_true_iff_witness :
  fst (add_to_project item_world (VStr "PVT_1") (VStr "I_1") [] cold) = Ok true /\
  fst (add_to_project hooks_world (VStr "PVT_1") (VStr "I_1") [] cold) = Ok false.
Proof.
  split.
  - destruct (add_to_project_true_iff item_world (VStr "PVT_1") (VStr "I_1") [] cold)
      as (b & Hrun & Hb).
    rewrite Hrun. cbn [fst]. f_equal. apply Hb.
    exists (mkResponse 200 None
              (Some (VDict [("data", VDict [("addProjectV2ItemById",
                       VDict [("item", VDict [("id", VStr "PVTI_1")])])])]))).
    exists [("data", VDict [("addProjectV2ItemById",
                       VDict [("item", VDict [("id", VStr "PVTI_1")])])])].
    exists (VStr "PVTI_1"). repeat split.
  - destruct (add_to_project_true_iff hooks_world (VStr "PVT_1") (VStr "I_1") [] cold)
      as (b & Hrun & Hb).
    rewrite Hrun. cbn [fst]. f_equal. destruct b; [|reflexivity].
    destruct (proj1 Hb eq_refl) as (r & d & x & H1 & H2 & _).
    vm_compute in H1. injection H1 as <-. discriminate H2.
Defined.

Lemma project_lookup_eval (W : World) (L : Library) (project_id org_name : string)
    (headers_ : headers) (st : state) (proj_num : Z) :
  int_of_str L project_id = Some proj_num ->
  get_project_node_id W L project_id org_name headers_ st =
  (Ok match page_of (send W (log st) (project_request L org_name proj_num headers_)) with
      | Some (_, VDict d) =>
          if has_key d "errors" then VNone
          else match project_id_of (VDict d) with Some node_id => node_id | None => VNone end
      | _ => VNone
      end,
   mkState (heap st) (_instance st)
           (log st ++ [Request (project_request L org_name proj_num headers_)])).
Proof.
  intros Hint.
  unfold get_project_node_id. rewrite Hint.
  unfold catch, requests_send, received, raise_for_status, response_json,
    py_contains, subscript, bind, get_log, emit, ret, raise,
    page_of, project_id_of, member.
  destruct (send W (log st) _) as [t|r]; [reflexivity|].
  destruct ((400 <=? status_code r) && (status_code r <? 600)); [reflexivity|].
  destruct (json r) as [data|]; [|reflexivity].
  destruct data as [| | | |s|l|d]; try reflexivity.
  - destruct (contains _ s); reflexivity.
  - destruct (py_in _ l); reflexivity.
  - destruct (has_key d "errors"); [reflexivity|].
    destruct (lookup "data" d) as [x1|]; [|reflexivity].
    destruct x1 as [| | | | | |d1]; try reflexivity.
    destruct (lookup "organization" d1) as [x2|]; [|reflexivity].
    destruct x2 as [| | | | | |d2]; try reflexivity.
    destruct (lookup "projectV2" d2) as [x3|]; [|reflexivity].
    destruct x3 as [| | | | | |d3]; try reflexivity.
    destruct (lookup "id" d3); reflexivity.
Qed.

(** X17.  With a project id that [int] accepts, [get_project_node_id]
    never raises and sends one request, the query for the organisation
    and project number serialised by [json.dumps].  It returns the value
    at data.organization.projectV2.id when the response has no error
    status and is a JSON object without an errors member, and None in
    every other case: a failed request, an error status, a body that is
    not a JSON object, an errors member, or a missing field. *)
Theorem project_lookup_result (W : World) (L : Library) (project_id org_name : string)
    (headers_ : headers) (st : state) (proj_num : Z) :
  int_of_str L project_id = Some proj_num ->
  exists node_id,
    get_project_node_id W L project_id org_name headers_ st =
      (Ok node_id,
       mkState (heap st) (_instance st)
         (log st ++ [Request (mkRequest POST GITHUB_GRAPHQL_URL headers_
                       (DataBody (json_dumps L (project_payload org_name proj_num)))
                       None)])) /\
    (forall r d x,
       send W (log st) (project_request L org_name proj_num headers_) = Responded r ->
       (400 <=? status_code r) && (status_code r <? 600) = false ->
       json r = Some (VDict d) ->
       lookup "errors" d = None ->
       project_id_of (VDict d) = Some x ->
       node_id = x) /\
    ((forall r d x,
       send W (log st) (project_request L org_name proj_num headers_) = Responded r ->
       (400 <=? status_code r) && (status_code r <? 600) = false ->
       json r = Some (VDict d) ->
       lookup "errors" d = None ->
       project_id_of (VDict d) = Some x -> False) ->
     node_id = VNone).
Proof.
  intros Hint. rewrite (project_lookup_eval W L _ _ _ _ _ Hint).
  eexists. split; [reflexivity|]. unfold page_of, has_key.
  destruct (send W (log st) _) as [t|r].
  - split; [intros r d x H; discriminate|reflexivity].
  - destruct ((400 <=? status_code r) && (status_code r <? 600)) eqn:Hs.
    + split; [intros r' d x H1 H2; congruence|reflexivity].
    + destruct (json r) as [data|] eqn:Hj.
      2:{ split; [intros r' d x H1 _ H3; congruence|reflexivity]. }
      destruct data as [| | | | | |d];
        try (split; [intros r' d' x H1 _ H3; congruence|reflexivity]).
      destruct (lookup "errors" d) eqn:He.
      * split; [intros r' d' x H1 _ H3 H4; congruence|reflexivity].
      * destruct (project_id_of (VDict d)) as [x|] eqn:Hid.
        -- split.
           ++ intros r' d' x' H1 _ H3 _ H5. congruence.
           ++ intros Hnone. exfalso. apply (Hnone r d x); auto.
        -- split; [intros r' d' x' H1 _ H3 _ H5; congruence|reflexivity].
Qed.

Lemma project_lookup_result_witness :
  fst (get_project_node_id startup_world library "12" "GlueOps" [] cold) = Ok (VStr "PVT_1").
Proof.
  destruct (project_lookup_result startup_world library "12" "GlueOps" [] cold 12 eq_refl)
    as (node_id & Hrun & Hfound & _).
  rewrite Hrun. cbn [fst]. f_equal.
  apply (Hfound (mkResponse 200 None
           (Some (VDict [("data", VDict [("organization",
              VDict [("projectV2", VDict [("id", VStr "PVT_1")])])])])))
           [("data", VDict [("organization",
              VDict [("projectV2", VDict [("id", VStr "PVT_1")])])])]
           (VStr "PVT_1")); reflexivity.
Defined.

(** A project id that [int] rejects raises ValueError before anything is
    sent: the conversion of line 38 is outside the [try]. *)
Lemma project_lookup_rejects_bad_id (W : World) (L : Library) (project_id org_name : string)
    (headers_ : headers) (st : state) :
  int_of_str L project_id = None ->
  get_project_node_id W L project_id org_name headers_ st = (Raise ExValueError, st).
Proof. intros H. unfold get_project_node_id. now rewrite H. Qed.

(** ** main.py: the webhook handler, further *)

(** X18.  An event that is not "issues", or a request without the event
    header, is acknowledged with "No action taken." without the body
    being read: nothing is sent and nothing changes, even when the body
    is not JSON. *)
Theorem other_events_are_ignored (W : World) (PROJECT_NODE_ID : value) (headers_ : headers)
    (event_type : option string) (payload : option value) (st : state) :
  event_type <> Some "issues" ->
  trigger_workflow W PROJECT_NODE_ID headers_ event_type payload st =
  (Ok (message "No action taken."), st).
Proof.
  intros Hev. unfold trigger_workflow.
  destruct event_type as [e|]; [|reflexivity].
  destruct (String.eqb e "issues") eqn:E; [|reflexivity].
  apply String.eqb_eq in E. congruence.
Qed.

Lemma other_events_are_ignored_witness :
  trigger_workflow hooks_world (VStr "PVT_1") [] (Some "push") None cold =
  (Ok (message "No action taken."), cold).
Proof. apply other_events_are_ignored. discriminate. Defined.

(** X19.  An issues event whose body is not JSON, is not a JSON object,
    or has an issue member that is not an object (null included) is
    answered with status 500 and the detail "Internal Server Error";
    nothing is sent and nothing changes. *)
Theorem malformed_issues_payload_is_500 (W : World) (PROJECT_NODE_ID : value)
    (headers_ : headers) (payload : option value) (st : state) :
  (forall fields issue,
     payload = Some (VDict fields) ->
     get_default fields "issue" (VDict []) <> VDict issue) ->
  trigger_workflow W PROJECT_NODE_ID headers_ (Some "issues") payload st =
    (Raise (ExHTTPException 500 "Internal Server Error"), st) /\
  http_reply
    (fst (trigger_workflow W PROJECT_NODE_ID headers_ (Some "issues") payload st)) =
    (500, VDict [("detail", VStr "Internal Server Error")]).
Proof.
  intros Hbad.
  assert (Hrun : trigger_workflow W PROJECT_NODE_ID headers_ (Some "issues") payload st =
                 (Raise (ExHTTPException 500 "Internal Server Error"), st)).
  { unfold trigger_workflow.
    change (String.eqb "issues" "issues") with true. cbv iota.
    unfold catch, bind, ret, raise.
    destruct payload as [v|]; [|reflexivity].
    destruct v as [| | | | | |fields]; try reflexivity.
    cbn [as_dict]. unfold ret.
    specialize (Hbad fields).
    destruct (get_default fields "issue" (VDict [])) as [| | | | | |issue]; try reflexivity.
    now destruct (Hbad issue eq_refl). }
  split; [exact Hrun|]. now rewrite Hrun.
Qed.

Lemma malformed_issues_payload_is_500_witness :
  http_reply (fst (trigger_workflow hooks_world (VStr "PVT_1") [] (Some "issues")
                     (Some (VDict [("action", VStr "closed"); ("issue", VNone)])) cold)) =
  (500, VDict [("detail", VStr "Internal Server Error")]).
Proof.
  apply malformed_issues_payload_is_500.
  intros fields issue [= <-]. discriminate.
Defined.

(** X20.  The handler never asks the token manager for headers.  On any
    request it leaves the manager and its cached token as they are and
    sends at most one request, the add-item mutation, with the headers
    the module obtained when it was loaded. *)
Theorem handler_uses_the_startup_headers (W : World) (PROJECT_NODE_ID : value)
    (headers_ : headers) (event_type : option string) (payload : option value) (st : state) :
  let st' := snd (trigger_workflow W PROJECT_NODE_ID headers_ event_type payload st) in
  heap st' = heap st /\ _instance st' = _instance st /\
  (log st' = log st \/
   exists node_id,
     log st' = (log st ++ [Request (add_item_request W PROJECT_NODE_ID node_id headers_)])%list).
Proof.
  cbv zeta. unfold trigger_workflow.
  destruct (match event_type with Some e => String.eqb e "issues" | None => false end);
    [|cbn; auto].
  unfold catch, bind, ret, raise.
  destruct payload as [v|]; [|cbn; auto].
  destruct v as [| | | | | |fields]; try (cbn; auto; fail).
  cbn [as_dict]. unfold ret.
  destruct (get_default fields "issue" (VDict [])) as [| | | | | |issue];
    try (cbn; auto; fail).
  cbn [as_dict]. unfold ret.
  destruct (py_in (get fields "action") [VStr "opened"; VStr "reopened"]
            && truthy (get issue "node_id")); [|cbn; auto].
  rewrite add_to_project_total. cbn [snd heap _instance log].
  repeat split. right. eexists. reflexivity.
Qed.

(** ** main.py: loading the module *)

Lemma get_headers_refreshed (W : World) (self : ref) (st st' : state) (m : manager)
    (h : headers) :
  nth_error (heap st) self = Some m ->
  needs_refresh m (time_time W (log st)) = true ->
  get_headers W self st = (Ok h, st') ->
  exists req,
    token_request W self st = (Ok req, st) /\
    url req = GITHUB_ACCESS_TOKENS_URL_TEMPLATE (github_app_installation_id m) /\
    log st' = (log st ++ [Request req])%list.
Proof.
  intros Hm Hstale. rewrite (get_headers_stale W self st m Hm Hstale).
  unfold bind at 1.
  destruct (send_exchange_cases W self st) as [(e & Hreq & _)|(req & Hreq & _)].
  - unfold _fetch_new_token, bind at 1. rewrite Hreq. discriminate.
  - rewrite (fetch_new_token_eval W self st req Hreq).
    destruct (token_store W self _ _) as [[u|e] st1] eqn:Hst; [|discriminate].
    apply token_store_log in Hst. cbn [log] in Hst.
    intros Hb. apply build_headers_state in Hb. subst st'.
    exists req. split; [exact Hreq|]. split; [|exact Hst].
    revert Hreq. unfold token_request, bind, ret. rewrite (load_some _ _ _ Hm).
    destruct (github_auth_jwt W _ _ st) as [[hd|e] s0]; [|discriminate].
    now intros [= <- _].
Qed.

Lemma initialize_eval (W : World) (L : Library)
    (installation_id app_id private_key project_id org_name : string) (st : state) :
  _instance st = None ->
  let self := List.length (heap st) in
  let st1 := mkState (heap st ++ [mkManager installation_id app_id private_key VNone 0%Q])
                     (Some self) (log st) in
  initialize W L installation_id app_id private_key project_id org_name st =
  match get_headers W self st1 with
  | (Ok headers_, st2) =>
      match get_project_node_id W L project_id org_name headers_ st2 with
      | (Ok node_id, st3) => (Ok (headers_, node_id), st3)
      | (Raise e, st3) => (Raise e, st3)
      end
  | (Raise e, st2) => (Raise e, st2)
  end.
Proof.
  intros Hnone self st1. unfold initialize, bind at 1.
  unfold GitHubInstallationTokenManager. rewrite Hnone. fold self. fold st1.
  unfold bind at 1. destruct (get_headers W self st1) as [[h|e] st2]; [|reflexivity].
  unfold bind, ret.
  destruct (get_project_node_id W L project_id org_name h st2) as [[n|e] st3]; reflexivity.
Qed.

(** X21.  Loading the module in a new process with a numeric project id:
    if the token exchange does not yield headers, loading fails with the
    error of the exchange and the project is never looked up (at most the
    exchange request has been sent); if it does, loading succeeds
    whatever the project lookup runs into, with exactly two requests, the
    exchange and then the project query carrying the new installation
    token, and the project node id is None when the lookup found
    nothing. *)
Theorem loading_exchanges_then_looks_up (W : World) (L : Library)
    (installation_id app_id private_key project_id org_name : string)
    (trace : list event) (proj_num : Z) :
  int_of_str L project_id = Some proj_num ->
  let st1 := mkState [mkManager installation_id app_id private_key VNone 0%Q]
                     (Some 0%nat) trace in
  let loaded := initialize W L installation_id app_id private_key project_id org_name
                  (mkState [] None trace) in
  (forall e st2, get_headers W 0%nat st1 = (Raise e, st2) ->
     loaded = (Raise e, st2) /\
     (List.length (log st2) <= List.length trace + 1)%nat) /\
  (forall headers_ st2, get_headers W 0%nat st1 = (Ok headers_, st2) ->
     exists node_id st3 exchange,
       loaded = (Ok (headers_, node_id), st3) /\
       url exchange = GITHUB_ACCESS_TOKENS_URL_TEMPLATE installation_id /\
       log st3 = (trace ++ [Request exchange;
                            Request (project_request L org_name proj_num headers_)])%list /\
       fst (get_project_node_id W L project_id org_name headers_ st2) = Ok node_id).
Proof.
  intros Hint st1 loaded.
  assert (Hload : loaded =
    match get_headers W 0%nat st1 with
    | (Ok headers_, st2) =>
        match get_project_node_id W L project_id org_name headers_ st2 with
        | (Ok node_id, st3) => (Ok (headers_, node_id), st3)
        | (Raise e, st3) => (Raise e, st3)
        end
    | (Raise e, st2) => (Raise e, st2)
    end).
  { subst loaded. now rewrite initialize_eval. }
  assert (Hcold : needs_refresh (mkManager installation_id app_id private_key VNone 0%Q)
                                (time_time W (log st1)) = true) by reflexivity.
  assert (Hm : nth_error (heap st1) 0 = Some (mkManager installation_id app_id private_key
                                                        VNone 0%Q)) by reflexivity.
  split.
  - intros e st2 Hrun. rewrite Hload, Hrun. split; [reflexivity|].
    revert Hrun. rewrite (get_headers_stale W 0%nat st1 _ Hm Hcold).
    unfold bind at 1.
    destruct (send_exchange_cases W 0%nat st1) as [(e' & Hreq & _)|(req & Hreq & _)].
    + unfold _fetch_new_token, bind at 1. rewrite Hreq. intros [= _ <-]. simpl. lia.
    + rewrite (fetch_new_token_eval W 0%nat st1 req Hreq).
      destruct (token_store W 0%nat _ _) as [[u|e'] st] eqn:Hst;
        apply token_store_log in Hst; cbn [log] in Hst.
      * intros Hb. apply build_headers_state in Hb. subst st2.
        rewrite Hst, length_app. simpl. lia.
      * intros [= _ <-]. rewrite Hst, length_app. simpl. lia.
  - intros headers_ st2 Hrun. rewrite Hload, Hrun.
    rewrite (project_lookup_eval W L _ _ _ _ _ Hint).
    destruct (get_headers_refreshed W 0%nat st1 st2 _ headers_ Hm Hcold Hrun)
      as (req & _ & Hurl & Hlog).
    eexists _, _, req. split; [reflexivity|]. split; [exact Hurl|].
    cbn [log fst]. split; [|reflexivity]. rewrite Hlog. cbn [log].
    now rewrite <- app_assoc.
Qed.

Lemma loading_exchanges_then_looks_up_witness :
  fst (initialize startup_world library "42" "7" "PEM" "12" "GlueOps" fresh_process) =
  Ok (auth_headers_of "ghs_new", VStr "PVT_1").
Proof.
  destruct (proj2 (loading_exchanges_then_looks_up startup_world library
                     "42" "7" "PEM" "12" "GlueOps" [] 12 eq_refl)
              (auth_headers_of "ghs_new")
              (snd (get_headers startup_world 0%nat
                      (mkState [mkManager "42" "7" "PEM" VNone 0%Q] (Some 0%nat) [])))
              eq_refl)
    as (node_id & st3 & exchange & Hloaded & _ & _ & Hnode).
  unfold fresh_process. rewrite Hloaded. cbn [fst].
  vm_compute in Hnode. injection Hnode as <-. reflexivity.
Defined.

(** ** main.py: the settings *)

Lemma required_variable (environ : string -> option string) (var_name : string) :
  In var_name REQUIRED_ENV_VARS ->
  get_env_variable environ var_name VNone =
  match environ var_name with
  | Some s => inr (VStr s)
  | None => inl (EnvironmentError
                   ("Environment variable " ++ quote ++ var_name ++ quote
                    ++ " is required but not set."))
  end.
Proof.
  intros Hin. unfold get_env_variable.
  replace (existsb (String.eqb var_name) REQUIRED_ENV_VARS) with true.
  - destruct (environ var_name); reflexivity.
  - symmetry. apply existsb_exists. exists var_name. split; [assumption|apply String.eqb_refl].
Qed.

Lemma optional_variable (environ : string -> option string) (var_name : string)
    (default : value) :
  existsb (String.eqb var_name) REQUIRED_ENV_VARS = false ->
  get_env_variable environ var_name default =
  inr (match environ var_name with Some s => VStr s | None => default end).
Proof. intros H. unfold get_env_variable. now rewrite H. Qed.

(** X22.  The settings can be read exactly when the four required
    variables are set and the number of days, if set, is an integer.
    They are then the values of the environment, the project id passed
    through [str], with 3 days, the organisation GlueOps and the log
    level WARNING where the environment says nothing. *)
Theorem settings_need_the_required_variables (environ : string -> option string)
    (L : Library) (str : value -> string) :
  ((exists s, read_settings environ L str = inr s) <-> well_configured environ L) /\
  (forall s, read_settings environ L str = inr s ->
     Some (GITHUB_APP_ID s) = option_map VStr (environ "GITHUB_APP_ID") /\
     Some (GITHUB_APP_PRIVATE_KEY s) = option_map VStr (environ "GITHUB_APP_PRIVATE_KEY") /\
     Some (GITHUB_APP_INSTALLATION_ID s)
       = option_map VStr (environ "GITHUB_APP_INSTALLATION_ID") /\
     Some (GITHUB_PROJECT_ID s)
       = option_map (fun p => str (VStr p)) (environ "GITHUB_PROJECT_ID") /\
     match environ "NUM_OF_DAYS_TO_REPROCESS_WEBHOOKS" with
     | Some d => int_of_str L d = Some (NUM_OF_DAYS_TO_REPROCESS_WEBHOOKS s)
     | None => NUM_OF_DAYS_TO_REPROCESS_WEBHOOKS s = 3
     end /\
     GITHUB_ORG_NAME s = match environ "GITHUB_ORG_NAME" with
                         | Some o => VStr o | None => VStr "GlueOps" end /\
     LOG_LEVEL s = match environ "LOG_LEVEL" with
                   | Some l => VStr l | None => VStr "WARNING" end).
Proof.
  unfold well_configured, read_settings, REQUIRED_ENV_VARS.
  rewrite !Forall_cons_iff.
  rewrite !required_variable by (simpl; auto 6).
  rewrite !optional_variable by reflexivity.
  unfold and_then, int_of.
  destruct (environ "GITHUB_APP_ID") as [a|];
    [|split; [split; [intros [s H]; discriminate|intros [[H _] _]; congruence]
             |intros s H; discriminate]].
  destruct (environ "GITHUB_APP_PRIVATE_KEY") as [k|];
    [|split; [split; [intros [s H]; discriminate|intros [(_ & H & _) _]; congruence]
             |intros s H; discriminate]].
  destruct (environ "NUM_OF_DAYS_TO_REPROCESS_WEBHOOKS") as [d|].
  - destruct (int_of_str L d) as [n|] eqn:Hd.
    2:{ split; [split; [intros [s H]; discriminate|]|intros s H; discriminate].
        intros [_ H]. now destruct (H d eq_refl). }
    destruct (environ "GITHUB_PROJECT_ID") as [p|];
      [|split; [split; [intros [s H]; discriminate|intros [(_ & _ & H & _) _]; congruence]
               |intros s H; discriminate]].
    destruct (environ "GITHUB_APP_INSTALLATION_ID") as [i|];
      [|split; [split; [intros [s H]; discriminate
                       |intros [(_ & _ & _ & H & _) _]; congruence]
               |intros s H; discriminate]].
    split.
    + split; [intros _|intros _; eexists; reflexivity].
      split; [repeat split; try discriminate; constructor|].
      intros s [= <-]. congruence.
    + intros s [= <-]. cbn. repeat split.
  - destruct (environ "GITHUB_PROJECT_ID") as [p|];
      [|split; [split; [intros [s H]; discriminate|intros [(_ & _ & H & _) _]; congruence]
               |intros s H; discriminate]].
    destruct (environ "GITHUB_APP_INSTALLATION_ID") as [i|];
      [|split; [split; [intros [s H]; discriminate
                       |intros [(_ & _ & _ & H & _) _]; congruence]
               |intros s H; discriminate]].
    split.
    + split; [intros _|intros _; eexists; reflexivity].
      split; [repeat split; try discriminate; constructor|].
      intros s H. discriminate.
    + intros s [= <-]. cbn. repeat split.
Qed.

Lemma settings_need_the_required_variables_witness :
  exists s, read_settings minimal_environ library str_of = inr s /\
            NUM_OF_DAYS_TO_REPROCESS_WEBHOOKS s = 3 /\ GITHUB_PROJECT_ID s = "12".
Proof.
  destruct (proj2 (proj1 (settings_need_the_required_variables minimal_environ library str_of)))
    as [s Hs].
  - split; [repeat constructor; discriminate|]. intros s H. discriminate H.
  - exists s. split; [exact Hs|].
    destruct (proj2 (settings_need_the_required_variables minimal_environ library str_of) s Hs)
      as (_ & _ & _ & Hp & Hd & _).
    split; [exact Hd|]. now injection Hp.
Defined.

(** ** Callers of get_headers that do not overlap *)

Ltac middle_step :=
  try unfold step; cbn [callers shared];
  rewrite ?nth_error_middle; try unfold advance; cbn [callers shared];
  rewrite ?update_middle.

(** A caller that runs its four steps without being interleaved does
    what the method does, and leaves the other callers where they are. *)
Lemma caller_runs_alone (W : World) (self : ref) (st : state) (pre post : list caller) :
  run W self (four_steps (List.length pre)) (mkConfig st (pre ++ Idle :: post)) =
  mkConfig (snd (get_headers W self st))
           (pre ++ outcome_of (fst (get_headers W self st)) :: post).
Proof.
  rewrite get_headers_unfold. unfold run, four_steps. cbn [fold_left].
  middle_step.
  destruct (check_token W self st) as [[[|]|e] st0] eqn:Hc;
    apply check_token_state in Hc; subst st0; middle_step.
  - middle_step.
    destruct (send_exchange_cases W self st) as [(e & Hreq & Hs)|(req & Hreq & Hs)];
      rewrite Hs, Hreq; middle_step.
    + middle_step. middle_step. reflexivity.
    + middle_step.
      destruct (token_store W self _ _) as [[u|e] st1]; middle_step.
      * middle_step. destruct (build_headers W self st1) as [[h|e] st2]; middle_step;
          reflexivity.
      * middle_step. reflexivity.
  - middle_step. destruct (build_headers W self st) as [[h|e] st2]; middle_step.
    + middle_step. middle_step. reflexivity.
    + middle_step. middle_step. reflexivity.
  - middle_step. middle_step. middle_step. reflexivity.
Qed.

Lemma later_callers_hit_the_cache (W : World) (self : ref) (st : state) (h : headers)
    (k : nat) :
  get_headers W self st = (Ok h, st) ->
  forall pre post : list caller,
  run W self (List.concat (map four_steps (seq (List.length pre) k)))
      (mkConfig st (pre ++ repeat Idle k ++ post)) =
  mkConfig st (pre ++ repeat (Done h) k ++ post).
Proof.
  intros Hhit. induction k as [|k IH]; intros pre post; [reflexivity|].
  cbn [seq map List.concat repeat app]. unfold run. rewrite fold_left_app.
  fold (run W self (four_steps (List.length pre))
            (mkConfig st (pre ++ Idle :: repeat Idle k ++ post))).
  rewrite caller_runs_alone, Hhit. cbn [fst snd outcome_of].
  specialize (IH (pre ++ [Done h])%list post).
  rewrite length_app, Nat.add_1_r, <- app_assoc in IH. cbn [app] in IH.
  unfold run in IH. rewrite IH. now rewrite <- app_assoc.
Qed.

(** X23.  Callers that take turns share one token exchange: when the
    first of them finds the cache cold or stale and its exchange yields a
    token that is not due for a refresh afterwards, every caller returns
    the headers of that token and the first caller's request is the only
    one sent. *)
Theorem callers_in_turn_share_one_exchange (W : World) (self : ref) (st st1 : state)
    (m : manager) (h : headers) (n : nat) :
  nth_error (heap st) self = Some m ->
  needs_refresh m (time_time W (log st)) = true ->
  get_headers W self st = (Ok h, st1) ->
  (forall m1, nth_error (heap st1) self = Some m1 ->
              needs_refresh m1 (time_time W (log st1)) = false) ->
  let c := run W self (List.concat (map four_steps (seq 0 (S n)))) (start st (S n)) in
  callers c = repeat (Done h) (S n) /\
  calls c = S (calls (start st (S n))).
Proof.
  intros Hm Hstale Hrun Hfresh c.
  assert (Hc : c = mkConfig st1 (repeat (Done h) (S n))).
  { subst c. unfold start. cbn [seq map List.concat repeat]. unfold run.
    rewrite fold_left_app.
    pose proof (caller_runs_alone W self st [] (repeat Idle n)) as H1.
    cbn [List.length app] in H1. unfold run in H1. rewrite H1, Hrun.
    cbn [fst snd outcome_of].
    destruct (get_headers_again W self st st1 h Hrun) as (m1 & Hm1 & _ & Hagain).
    pose proof (later_callers_hit_the_cache W self st1 h n (Hagain (Hfresh m1 Hm1))
                  [Done h] []) as H2.
    cbn [List.length app] in H2. rewrite !app_nil_r in H2. unfold run in H2.
    exact H2. }
  rewrite Hc. split; [reflexivity|].
  destruct (get_headers_refreshed W self st st1 m h Hm Hstale Hrun) as (req & _ & _ & Hlog).
  unfold calls, start. cbn [shared]. rewrite Hlog. apply calls_snoc_request.
Qed.

Lemma callers_in_turn_share_one_exchange_witness :
  calls (run token_world 0%nat [0; 0; 0; 0; 1; 1; 1; 1; 2; 2; 2; 2]%nat (start cold 3))
    = 1%nat.
Proof.
  apply (callers_in_turn_share_one_exchange token_world 0%nat cold
           (snd (get_headers token_world 0%nat cold)) _ (auth_headers_of "ghs_new") 2
           eq_refl eq_refl eq_refl).
  intros m1 [= <-]. reflexivity.
Defined.

(** ** auth.py: callers of get_headers under any schedule *)










